(** * The dataset builder of CLIP_benchmark, embedded in Rocq

    Source: [clip_benchmark/datasets/builder.py].

    The module resolves a dataset identifier to a dataset handle
    ([build_dataset], [build_vtab_dataset], [build_tfds_dataset]), selects a
    batch collator ([get_dataset_collate_fn], [image_captions_collate_fn]) and
    looks up prompt templates ([get_zeroshot_classification_templates]).

    Python values are embedded as a small value type, Python exceptions and
    [sys.exit] as outcomes, and everything the module does to the outside
    world (printing, calling a dataset backend) as a trace of events.  The
    dataset backends themselves (torchvision, task_adaptation, timm,
    tensorflow_datasets) are not part of the module: they are a [world] the
    functions are run in.  The [import] statements inside the functions are
    taken to succeed. *)

From Stdlib Require Import String Ascii List ZArith Bool Lia.
Import ListNotations.
Open Scope string_scope.
Open Scope list_scope.

(** ** Python strings: [str.startswith], [str.split], [str.join] *)

Module PyStr.

(** The double quote character, for templates that contain one. *)
Definition dq : string := String (ascii_of_nat 34) EmptyString.

(** [s.startswith(p)]. *)
Definition startswith (s p : string) : bool := String.prefix p s.

(** [s.split(sep)] for a one-character separator: the pieces between the
    occurrences of [sep], empty pieces included; never the empty list. *)
Fixpoint split (sep : ascii) (s : string) : list string :=
  match s with
  | EmptyString => [EmptyString]
  | String c s' =>
      if Ascii.eqb c sep then EmptyString :: split sep s'
      else match split sep s' with
           | [] => [String c EmptyString]
           | w :: ws => String c w :: ws
           end
  end.

(** [sep.join(pieces)]. *)
Fixpoint join (sep : string) (pieces : list string) : string :=
  match pieces with
  | [] => EmptyString
  | [w] => w
  | w :: ws => w ++ sep ++ join sep ws
  end.

(** [c in s] for a character. *)
Fixpoint contains (c : ascii) (s : string) : bool :=
  match s with
  | EmptyString => false
  | String c' s' => Ascii.eqb c' c || contains c s'
  end.

(** [x in (a, b, ...)] for strings: membership by [==]. *)
Fixpoint str_in (x : string) (t : list string) : bool :=
  match t with
  | [] => false
  | y :: t' => String.eqb x y || str_in x t'
  end.

(** [os.path.join(a, b)] of [posixpath] for a relative second component. *)
Definition ends_with_slash (a : string) : bool :=
  match get (String.length a - 1) a with
  | Some c => Ascii.eqb c "/"%char
  | None => false
  end.

Definition os_path_join (a b : string) : string :=
  if String.eqb a EmptyString || ends_with_slash a then a ++ b
  else a ++ "/" ++ b.

End PyStr.

(** ** Python values, exceptions, and the effects of the module *)

Module Py.

(** The values the module passes around without looking inside them. *)
Inductive pyval : Type :=
| PNone
| PBool (b : bool)
| PInt (n : Z)
| PStr (s : string)
| PStrList (l : list string)
| PBuiltin (name : string)   (* a builtin callable, as [int] *)
| PObj (id : nat).           (* an opaque object: an image, a transform *)

(** A keyword bag, in the order the keywords were given. *)
Definition kwargs := list (string * pyval).

Inductive exn : Type :=
| ValueError (msg : string)
| TypeError (msg : string)
| AssertionError
| IndexError
| KeyError (key : string)
| AttributeError (attr : string)
| BackendError (tag : nat).   (* whatever a backend raises *)

(** How a call ends: it returns, raises, or ends the process
    ([sys.exit(code)]). *)
Inductive outcome (A : Type) : Type :=
| Ret (a : A)
| Raise (e : exn)
| Exit (code : Z).
Arguments Ret {A} a.
Arguments Raise {A} e.
Arguments Exit {A} code.

(** What the module does to the outside world. *)
Inductive event : Type :=
| EPrint (msg : string)
| ECall (callee : string) (pos : list pyval) (kw : kwargs).

(** A computation: the events it caused, in order, and how it ended. *)
Definition Eff (A : Type) : Type := (list event * outcome A)%type.

Definition ret {A} (a : A) : Eff A := ([], Ret a).
Definition raise {A} (e : exn) : Eff A := ([], Raise e).
Definition sys_exit {A} (code : Z) : Eff A := ([], Exit code).
Definition print (msg : string) : Eff unit := ([EPrint msg], Ret tt).

Definition bind {A B} (m : Eff A) (k : A -> Eff B) : Eff B :=
  match m with
  | (t, Ret a) => let (t', o) := k a in (t ++ t', o)
  | (t, Raise e) => (t, Raise e)
  | (t, Exit c) => (t, Exit c)
  end.

(** A call of an external callable: the call is an event, and its result
    is whatever the callable answers. *)
Definition call {A} (callee : string) (pos : list pyval) (kw : kwargs)
           (answer : outcome A) : Eff A :=
  ([ECall callee pos kw], answer).

(** [assert b]. *)
Definition assert_ (b : bool) : Eff unit :=
  if b then ret tt else raise AssertionError.

(** [d[key]] and [d.get(key, default)] on a dict with string keys. *)
Fixpoint dict_find {V} (d : list (string * V)) (key : string) : option V :=
  match d with
  | [] => None
  | (k, v) :: d' => if String.eqb k key then Some v else dict_find d' key
  end.

Definition subscript {V} (d : list (string * V)) (key : string) : Eff V :=
  match dict_find d key with
  | Some v => ret v
  | None => raise (KeyError key)
  end.

Definition dict_get {V} (d : list (string * V)) (key : string) (default : V) : V :=
  match dict_find d key with
  | Some v => v
  | None => default
  end.

(** [l[i]] on a list, for [i >= 0]. *)
Definition index {A} (l : list A) (i : nat) : Eff A :=
  match nth_error l i with
  | Some a => ret a
  | None => raise IndexError
  end.

Definition trace {A} (m : Eff A) : list event := fst m.
Definition result {A} (m : Eff A) : outcome A := snd m.


End Py.

Export Py.

Declare Scope eff_scope.
Delimit Scope eff_scope with eff.
Notation "x <- m ;; k" := (bind m (fun x => k))
  (at level 61, m at next level, right associativity) : eff_scope.
Notation "m ;;; k" := (bind m (fun _ => k))
  (at level 61, right associativity) : eff_scope.
Open Scope eff_scope.

(** ** The static tables: prompt templates and class names

    [zeroshot_classification_templates] and [classnames] are the two dict
    literals of the module, entry by entry and in the order of the source. *)

Module Tables.
Import PyStr.

Definition templates_cifar10 : list string :=
  [
    "a photo of a {c}."; "a blurry photo of a {c}."; "a black and white photo of a {c}.";
    "a low contrast photo of a {c}."; "a high contrast photo of a {c}."; "a bad photo of a {c}.";
    "a good photo of a {c}."; "a photo of a small {c}."; "a photo of a big {c}.";
    "a photo of the {c}."; "a blurry photo of the {c}."; "a black and white photo of the {c}.";
    "a low contrast photo of the {c}."; "a high contrast photo of the {c}.";
    "a bad photo of the {c}."; "a good photo of the {c}."; "a photo of the small {c}.";
    "a photo of the big {c}."
  ].

Definition templates_cifar100 : list string :=
  [
    "a photo of a {c}."; "a blurry photo of a {c}."; "a black and white photo of a {c}.";
    "a low contrast photo of a {c}."; "a high contrast photo of a {c}."; "a bad photo of a {c}.";
    "a good photo of a {c}."; "a photo of a small {c}."; "a photo of a big {c}.";
    "a photo of the {c}."; "a blurry photo of the {c}."; "a black and white photo of the {c}.";
    "a low contrast photo of the {c}."; "a high contrast photo of the {c}.";
    "a bad photo of the {c}."; "a good photo of the {c}."; "a photo of the small {c}.";
    "a photo of the big {c}."
  ].

Definition templates_imagenet1k : list string :=
  [
    "a bad photo of a {c}."; "a photo of many {c}."; "a sculpture of a {c}.";
    "a photo of the hard to see {c}."; "a low resolution photo of the {c}.";
    "a rendering of a {c}."; "graffiti of a {c}."; "a bad photo of the {c}.";
    "a cropped photo of the {c}."; "a tattoo of a {c}."; "the embroidered {c}.";
    "a photo of a hard to see {c}."; "a bright photo of a {c}."; "a photo of a clean {c}.";
    "a photo of a dirty {c}."; "a dark photo of the {c}."; "a drawing of a {c}.";
    "a photo of my {c}."; "the plastic {c}."; "a photo of the cool {c}.";
    "a close-up photo of a {c}."; "a black and white photo of the {c}."; "a painting of the {c}.";
    "a painting of a {c}."; "a pixelated photo of the {c}."; "a sculpture of the {c}.";
    "a bright photo of the {c}."; "a cropped photo of a {c}."; "a plastic {c}.";
    "a photo of the dirty {c}."; "a jpeg corrupted photo of a {c}."; "a blurry photo of the {c}.";
    "a photo of the {c}."; "a good photo of the {c}."; "a rendering of the {c}.";
    "a {c} in a video game."; "a photo of one {c}."; "a doodle of a {c}.";
    "a close-up photo of the {c}."; "a photo of a {c}."; "the origami {c}.";
    "the {c} in a video game."; "a sketch of a {c}."; "a doodle of the {c}."; "a origami {c}.";
    "a low resolution photo of a {c}."; "the toy {c}."; "a rendition of the {c}.";
    "a photo of the clean {c}."; "a photo of a large {c}."; "a rendition of a {c}.";
    "a photo of a nice {c}."; "a photo of a weird {c}."; "a blurry photo of a {c}.";
    "a cartoon {c}."; "art of a {c}."; "a sketch of the {c}."; "a embroidered {c}.";
    "a pixelated photo of a {c}."; "itap of the {c}."; "a jpeg corrupted photo of the {c}.";
    "a good photo of a {c}."; "a plushie {c}."; "a photo of the nice {c}.";
    "a photo of the small {c}."; "a photo of the weird {c}."; "the cartoon {c}."; "art of the {c}.";
    "a drawing of the {c}."; "a photo of the large {c}."; "a black and white photo of a {c}.";
    "the plushie {c}."; "a dark photo of a {c}."; "itap of a {c}."; "graffiti of the {c}.";
    "a toy {c}."; "itap of my {c}."; "a photo of a cool {c}."; "a photo of a small {c}.";
    "a tattoo of the {c}."
  ].

Definition templates_food101 : list string :=
  [
    "a photo of {c}, a type of food."
  ].

Definition templates_sun397 : list string :=
  [
    "a photo of a {c}."; "a photo of the {c}."
  ].

Definition templates_cars : list string :=
  [
    "a photo of a {c}."; "a photo of the {c}."; "a photo of my {c}."; "i love my {c}!";
    "a photo of my dirty {c}."; "a photo of my clean {c}."; "a photo of my new {c}.";
    "a photo of my old {c}."
  ].

Definition templates_fgvc_aircraft : list string :=
  [
    "a photo of a {c}, a type of aircraft."; "a photo of the {c}, a type of aircraft."
  ].

Definition templates_dtd : list string :=
  [
    "a photo of a {c} texture."; "a photo of a {c} pattern."; "a photo of a {c} thing.";
    "a photo of a {c} object."; "a photo of the {c} texture."; "a photo of the {c} pattern.";
    "a photo of the {c} thing."; "a photo of the {c} object."
  ].

Definition templates_pets : list string :=
  [
    "a photo of a {c}, a type of pet."
  ].

Definition templates_caltech101 : list string :=
  [
    "a photo of a {c}."; "a painting of a {c}."; "a plastic {c}."; "a sculpture of a {c}.";
    "a sketch of a {c}."; "a tattoo of a {c}."; "a toy {c}."; "a rendition of a {c}.";
    "a embroidered {c}."; "a cartoon {c}."; "a {c} in a video game."; "a plushie {c}.";
    "a origami {c}."; "art of a {c}."; "graffiti of a {c}."; "a drawing of a {c}.";
    "a doodle of a {c}."; "a photo of the {c}."; "a painting of the {c}."; "the plastic {c}.";
    "a sculpture of the {c}."; "a sketch of the {c}."; "a tattoo of the {c}."; "the toy {c}.";
    "a rendition of the {c}."; "the embroidered {c}."; "the cartoon {c}.";
    "the {c} in a video game."; "the plushie {c}."; "the origami {c}."; "art of the {c}.";
    "graffiti of the {c}."; "a drawing of the {c}."; "a doodle of the {c}."
  ].

Definition templates_flowers : list string :=
  [
    "a photo of a {c}, a type of flower."
  ].

Definition templates_mnist : list string :=
  [
    ("a photo of the number: " ++ dq ++ "{c}" ++ dq ++ ".")%string
  ].

Definition templates_stl10 : list string :=
  [
    "a photo of a {c}."; "a photo of the {c}."
  ].

Definition templates_eurosat : list string :=
  [
    "a centered satellite photo of {c}."; "a centered satellite photo of a {c}.";
    "a centered satellite photo of the {c}."
  ].

Definition templates_gtsrb : list string :=
  [
    ("a zoomed in photo of a " ++ dq ++ "{c}" ++ dq ++ " traffic sign.")%string;
    ("a centered photo of a " ++ dq ++ "{c}" ++ dq ++ " traffic sign.")%string;
    ("a close up photo of a " ++ dq ++ "{c}" ++ dq ++ " traffic sign.")%string
  ].

Definition templates_country211 : list string :=
  [
    "a photo i took in {c}."; "a photo i took while visiting {c}.";
    "a photo from my home country of {c}."; "a photo from my visit to {c}.";
    "a photo showing the country of {c}."
  ].

Definition templates_renderedsst2 : list string :=
  [
    "a {c} review of a movie."
  ].

Definition templates_voc2007 : list string :=
  [
    "a photo of a {c}."
  ].

Definition templates_fer2013 : list string :=
  [
    "a photo of a {c} looking face."; "a photo of a face showing the emotion: {c}.";
    "a photo of a face looking {c}."; "a face that looks {c}."; "they look {c}.";
    "look at how {c} they are."
  ].

Definition templates_clevr_count_all : list string :=
  [
    "a picture of {c} objects"
  ].

Definition templates_clevr_closest_object_distance : list string :=
  [
    "{c} shapes."
  ].

Definition templates_pcam : list string :=
  [
    "a histopathology slide showing {c}"; "histopathology image of {c}"
  ].

Definition templates_svhn : list string :=
  [
    "a photo of the number {c} written on a sign"; "an outdoor house number {c}";
    "the number {c} in the center of the image"; "an outdoor number {c} writte on a sign";
    "an outdoor number {c}"; "a centered image of the number {c}"
  ].

Definition templates_resisc45 : list string :=
  [
    "a sattelite image of {c}"; "an aerial view of {c}"; "a sattelite photo of {c}";
    "{c} from above"
  ].

Definition templates_kitti_closest_vehicle_distance : list string :=
  [
    "{c}"
  ].

Definition templates_smallnorb_label_azimuth : list string :=
  [
    "an object rotated at {c}"; "something rotated at {c}"; "{c} rotation";
    "something at a {c} angle"
  ].

Definition templates_smallnorb_label_elevation : list string :=
  [
    "an object rotated at {c}"; "something rotated at {c}"; "{c} rotation";
    "something at a {c} angle"
  ].

Definition templates_dsprites_label_x_position : list string :=
  [
    "an object located at position {c}% on the horizontal axis"
  ].

Definition templates_dsprites_label_orientation : list string :=
  [
    "an object rotated at {c}"; "something rotated at {c}"; "{c} rotation";
    "something at a {c} angle"
  ].

Definition templates_dmlab : list string :=
  [
    "{c}"
  ].

Definition templates_diabetic_retinopathy : list string :=
  [
    "a retinal image with {c}"
  ].

Definition zeroshot_classification_templates : list (string * list string) :=
  [
    ("cifar10", templates_cifar10);
    ("cifar100", templates_cifar100);
    ("imagenet1k", templates_imagenet1k);
    ("food101", templates_food101);
    ("sun397", templates_sun397);
    ("cars", templates_cars);
    ("fgvc_aircraft", templates_fgvc_aircraft);
    ("dtd", templates_dtd);
    ("pets", templates_pets);
    ("caltech101", templates_caltech101);
    ("flowers", templates_flowers);
    ("mnist", templates_mnist);
    ("stl10", templates_stl10);
    ("eurosat", templates_eurosat);
    ("gtsrb", templates_gtsrb);
    ("country211", templates_country211);
    ("renderedsst2", templates_renderedsst2);
    ("voc2007", templates_voc2007);
    ("fer2013", templates_fer2013);
    ("clevr_count_all", templates_clevr_count_all);
    ("clevr_closest_object_distance", templates_clevr_closest_object_distance);
    ("pcam", templates_pcam);
    ("svhn", templates_svhn);
    ("resisc45", templates_resisc45);
    ("kitti_closest_vehicle_distance", templates_kitti_closest_vehicle_distance);
    ("smallnorb_label_azimuth", templates_smallnorb_label_azimuth);
    ("smallnorb_label_elevation", templates_smallnorb_label_elevation);
    ("dsprites_label_x_position", templates_dsprites_label_x_position);
    ("dsprites_label_orientation", templates_dsprites_label_orientation);
    ("dmlab", templates_dmlab);
    ("diabetic_retinopathy", templates_diabetic_retinopathy)
  ].

Definition classnames_flowers : list string :=
  [
    "pink primrose"; "hard-leaved pocket orchid"; "canterbury bells"; "sweet pea";
    "english marigold"; "tiger lily"; "moon orchid"; "bird of paradise"; "monkshood";
    "globe thistle"; "snapdragon"; "colt's foot"; "king protea"; "spear thistle"; "yellow iris";
    "globe flower"; "purple coneflower"; "peruvian lily"; "balloon flower"; "giant white arum lily";
    "fire lily"; "pincushion flower"; "fritillary"; "red ginger"; "grape hyacinth"; "corn poppy";
    "prince of wales feathers"; "stemless gentian"; "artichoke"; "sweet william"; "carnation";
    "garden phlox"; "love in the mist"; "mexican aster"; "alpine sea holly"; "ruby-lipped cattleya";
    "cape flower"; "great masterwort"; "siam tulip"; "lenten rose"; "barbeton daisy"; "daffodil";
    "sword lily"; "poinsettia"; "bolero deep blue"; "wallflower"; "marigold"; "buttercup";
    "oxeye daisy"; "common dandelion"; "petunia"; "wild pansy"; "primula"; "sunflower";
    "pelargonium"; "bishop of llandaff"; "gaura"; "geranium"; "orange dahlia";
    "pink and yellow dahlia"; "cautleya spicata"; "japanese anemone"; "black-eyed susan";
    "silverbush"; "californian poppy"; "osteospermum"; "spring crocus"; "bearded iris";
    "windflower"; "tree poppy"; "gazania"; "azalea"; "water lily"; "rose"; "thorn apple";
    "morning glory"; "passion flower"; "lotus"; "toad lily"; "anthurium"; "frangipani"; "clematis";
    "hibiscus"; "columbine"; "desert-rose"; "tree mallow"; "magnolia"; "cyclamen"; "watercress";
    "canna lily"; "hippeastrum"; "bee balm"; "air plant"; "foxglove"; "bougainvillea"; "camellia";
    "mallow"; "mexican petunia"; "bromelia"; "blanket flower"; "trumpet creeper"; "blackberry lily"
  ].

Definition classnames_gtsrb : list string :=
  [
    "red and white circle 20 kph speed limit"; "red and white circle 30 kph speed limit";
    "red and white circle 50 kph speed limit"; "red and white circle 60 kph speed limit";
    "red and white circle 70 kph speed limit"; "red and white circle 80 kph speed limit";
    "end / de-restriction of 80 kph speed limit"; "red and white circle 100 kph speed limit";
    "red and white circle 120 kph speed limit";
    "red and white circle red car and black car no passing";
    "red and white circle red truck and black car no passing";
    "red and white triangle road intersection warning"; "white and yellow diamond priority road";
    "red and white upside down triangle yield right-of-way"; "stop"; "empty red and white circle";
    "red and white circle no truck entry"; "red circle with white horizonal stripe no entry";
    "red and white triangle with exclamation mark warning";
    "red and white triangle with black left curve approaching warning";
    "red and white triangle with black right curve approaching warning";
    "red and white triangle with black double curve approaching warning";
    "red and white triangle rough / bumpy road warning";
    "red and white triangle car skidding / slipping warning";
    "red and white triangle with merging / narrow lanes warning";
    "red and white triangle with person digging / construction / road work warning";
    "red and white triangle with traffic light approaching warning";
    "red and white triangle with person walking warning";
    "red and white triangle with child and person walking warning";
    "red and white triangle with bicyle warning";
    "red and white triangle with snowflake / ice warning";
    "red and white triangle with deer warning"; "white circle with gray strike bar no speed limit";
    "blue circle with white right turn arrow mandatory";
    "blue circle with white left turn arrow mandatory";
    "blue circle with white forward arrow mandatory";
    "blue circle with white forward or right turn arrow mandatory";
    "blue circle with white forward or left turn arrow mandatory";
    "blue circle with white keep right arrow mandatory";
    "blue circle with white keep left arrow mandatory";
    "blue circle with white arrows indicating a traffic circle";
    "white circle with gray strike bar indicating no passing for cars has ended";
    "white circle with gray strike bar indicating no passing for trucks has ended"
  ].

Definition classnames_country211 : list string :=
  [
    "Andorra"; "United Arab Emirates"; "Afghanistan"; "Antigua and Barbuda"; "Anguilla"; "Albania";
    "Armenia"; "Angola"; "Antarctica"; "Argentina"; "Austria"; "Australia"; "Aruba";
    "Aland Islands"; "Azerbaijan"; "Bosnia and Herzegovina"; "Barbados"; "Bangladesh"; "Belgium";
    "Burkina Faso"; "Bulgaria"; "Bahrain"; "Benin"; "Bermuda"; "Brunei Darussalam"; "Bolivia";
    "Bonaire, Saint Eustatius and Saba"; "Brazil"; "Bahamas"; "Bhutan"; "Botswana"; "Belarus";
    "Belize"; "Canada"; "DR Congo"; "Central African Republic"; "Switzerland"; "Cote d'Ivoire";
    "Cook Islands"; "Chile"; "Cameroon"; "China"; "Colombia"; "Costa Rica"; "Cuba"; "Cabo Verde";
    "Curacao"; "Cyprus"; "Czech Republic"; "Germany"; "Denmark"; "Dominica"; "Dominican Republic";
    "Algeria"; "Ecuador"; "Estonia"; "Egypt"; "Spain"; "Ethiopia"; "Finland"; "Fiji";
    "Falkland Islands"; "Faeroe Islands"; "France"; "Gabon"; "United Kingdom"; "Grenada"; "Georgia";
    "French Guiana"; "Guernsey"; "Ghana"; "Gibraltar"; "Greenland"; "Gambia"; "Guadeloupe";
    "Greece"; "South Georgia and South Sandwich Is."; "Guatemala"; "Guam"; "Guyana"; "Hong Kong";
    "Honduras"; "Croatia"; "Haiti"; "Hungary"; "Indonesia"; "Ireland"; "Israel"; "Isle of Man";
    "India"; "Iraq"; "Iran"; "Iceland"; "Italy"; "Jersey"; "Jamaica"; "Jordan"; "Japan"; "Kenya";
    "Kyrgyz Republic"; "Cambodia"; "St. Kitts and Nevis"; "North Korea"; "South Korea"; "Kuwait";
    "Cayman Islands"; "Kazakhstan"; "Laos"; "Lebanon"; "St. Lucia"; "Liechtenstein"; "Sri Lanka";
    "Liberia"; "Lithuania"; "Luxembourg"; "Latvia"; "Libya"; "Morocco"; "Monaco"; "Moldova";
    "Montenegro"; "Saint-Martin"; "Madagascar"; "Macedonia"; "Mali"; "Myanmar"; "Mongolia"; "Macau";
    "Martinique"; "Mauritania"; "Malta"; "Mauritius"; "Maldives"; "Malawi"; "Mexico"; "Malaysia";
    "Mozambique"; "Namibia"; "New Caledonia"; "Nigeria"; "Nicaragua"; "Netherlands"; "Norway";
    "Nepal"; "New Zealand"; "Oman"; "Panama"; "Peru"; "French Polynesia"; "Papua New Guinea";
    "Philippines"; "Pakistan"; "Poland"; "Puerto Rico"; "Palestine"; "Portugal"; "Palau";
    "Paraguay"; "Qatar"; "Reunion"; "Romania"; "Serbia"; "Russia"; "Rwanda"; "Saudi Arabia";
    "Solomon Islands"; "Seychelles"; "Sudan"; "Sweden"; "Singapore"; "St. Helena"; "Slovenia";
    "Svalbard and Jan Mayen Islands"; "Slovakia"; "Sierra Leone"; "San Marino"; "Senegal";
    "Somalia"; "South Sudan"; "El Salvador"; "Sint Maarten"; "Syria"; "Eswatini"; "Togo";
    "Thailand"; "Tajikistan"; "Timor-Leste"; "Turkmenistan"; "Tunisia"; "Tonga"; "Turkey";
    "Trinidad and Tobago"; "Taiwan"; "Tanzania"; "Ukraine"; "Uganda"; "United States"; "Uruguay";
    "Uzbekistan"; "Vatican"; "Venezuela"; "British Virgin Islands"; "United States Virgin Islands";
    "Vietnam"; "Vanuatu"; "Samoa"; "Kosovo"; "Yemen"; "South Africa"; "Zambia"; "Zimbabwe"
  ].

Definition classnames_eurosat : list string :=
  [
    "annual crop land"; "forest"; "brushland or shrubland"; "highway or road";
    "industrial buildings or commercial buildings"; "pasture land"; "permanent crop land";
    "residential buildings or homes or apartments"; "river"; "lake or sea"
  ].

Definition classnames_fer2013 : list string :=
  [
    "angry"; "disgusted"; "fearful"; "happy"; "neutral"; "sad"; "surprised"
  ].

Definition classnames_caltech101 : list string :=
  [
    "background"; "off-center face"; "centered face"; "leopard"; "motorbike"; "accordion";
    "airplane"; "anchor"; "ant"; "barrel"; "bass"; "beaver"; "binocular"; "bonsai"; "brain";
    "brontosaurus"; "buddha"; "butterfly"; "camera"; "cannon"; "side of a car"; "ceiling fan";
    "cellphone"; "chair"; "chandelier"; "body of a cougar cat"; "face of a cougar cat"; "crab";
    "crayfish"; "crocodile"; "head of a  crocodile"; "cup"; "dalmatian"; "dollar bill"; "dolphin";
    "dragonfly"; "electric guitar"; "elephant"; "emu"; "euphonium"; "ewer"; "ferry"; "flamingo";
    "head of a flamingo"; "garfield"; "gerenuk"; "gramophone"; "grand piano"; "hawksbill";
    "headphone"; "hedgehog"; "helicopter"; "ibis"; "inline skate"; "joshua tree"; "kangaroo";
    "ketch"; "lamp"; "laptop"; "llama"; "lobster"; "lotus"; "mandolin"; "mayfly"; "menorah";
    "metronome"; "minaret"; "nautilus"; "octopus"; "okapi"; "pagoda"; "panda"; "pigeon"; "pizza";
    "platypus"; "pyramid"; "revolver"; "rhino"; "rooster"; "saxophone"; "schooner"; "scissors";
    "scorpion"; "sea horse"; "snoopy (cartoon beagle)"; "soccer ball"; "stapler"; "starfish";
    "stegosaurus"; "stop sign"; "strawberry"; "sunflower"; "tick"; "trilobite"; "umbrella"; "watch";
    "water lilly"; "wheelchair"; "wild cat"; "windsor chair"; "wrench"; "yin and yang symbol"
  ].

Definition classnames_caltech101_vtab : list string :=
  [
    "accordion"; "airplane"; "anchor"; "ant"; "background"; "barrel"; "bass"; "beaver"; "binocular";
    "bonsai"; "brain"; "brontosaurus"; "buddha"; "butterfly"; "camera"; "cannon"; "side of a car";
    "ceiling fan"; "cellphone"; "chair"; "chandelier"; "body of a cougar cat";
    "face of a cougar cat"; "crab"; "crayfish"; "crocodile"; "head of a  crocodile"; "cup";
    "dalmatian"; "dollar bill"; "dolphin"; "dragonfly"; "electric guitar"; "elephant"; "emu";
    "euphonium"; "ewer"; "off-center face"; "centered face"; "ferry"; "flamingo";
    "head of a flamingo"; "garfield"; "gerenuk"; "gramophone"; "grand piano"; "hawksbill";
    "headphone"; "hedgehog"; "helicopter"; "ibis"; "inline skate"; "joshua tree"; "kangaroo";
    "ketch"; "lamp"; "laptop"; "leopard"; "llama"; "lobster"; "lotus"; "mandolin"; "mayfly";
    "menorah"; "metronome"; "minaret"; "motorbike"; "nautilus"; "octopus"; "okapi"; "pagoda";
    "panda"; "pigeon"; "pizza"; "platypus"; "pyramid"; "revolver"; "rhino"; "rooster"; "saxophone";
    "schooner"; "scissors"; "scorpion"; "sea horse"; "snoopy (cartoon beagle)"; "soccer ball";
    "stapler"; "starfish"; "stegosaurus"; "stop sign"; "strawberry"; "sunflower"; "tick";
    "trilobite"; "umbrella"; "watch"; "water lilly"; "wheelchair"; "wild cat"; "windsor chair";
    "wrench"; "yin and yang symbol"
  ].

Definition classnames_imagenet1k : list string :=
  [
    "tench"; "goldfish"; "great white shark"; "tiger shark"; "hammerhead shark"; "electric ray";
    "stingray"; "rooster"; "hen"; "ostrich"; "brambling"; "goldfinch"; "house finch"; "junco";
    "indigo bunting"; "American robin"; "bulbul"; "jay"; "magpie"; "chickadee"; "American dipper";
    "kite (bird of prey)"; "bald eagle"; "vulture"; "great grey owl"; "fire salamander";
    "smooth newt"; "newt"; "spotted salamander"; "axolotl"; "American bullfrog"; "tree frog";
    "tailed frog"; "loggerhead sea turtle"; "leatherback sea turtle"; "mud turtle"; "terrapin";
    "box turtle"; "banded gecko"; "green iguana"; "Carolina anole";
    "desert grassland whiptail lizard"; "agama"; "frilled-necked lizard"; "alligator lizard";
    "Gila monster"; "European green lizard"; "chameleon"; "Komodo dragon"; "Nile crocodile";
    "American alligator"; "triceratops"; "worm snake"; "ring-necked snake";
    "eastern hog-nosed snake"; "smooth green snake"; "kingsnake"; "garter snake"; "water snake";
    "vine snake"; "night snake"; "boa constrictor"; "African rock python"; "Indian cobra";
    "green mamba"; "sea snake"; "Saharan horned viper"; "eastern diamondback rattlesnake";
    "sidewinder rattlesnake"; "trilobite"; "harvestman"; "scorpion"; "yellow garden spider";
    "barn spider"; "European garden spider"; "southern black widow"; "tarantula"; "wolf spider";
    "tick"; "centipede"; "black grouse"; "ptarmigan"; "ruffed grouse"; "prairie grouse"; "peafowl";
    "quail"; "partridge"; "african grey parrot"; "macaw"; "sulphur-crested cockatoo"; "lorikeet";
    "coucal"; "bee eater"; "hornbill"; "hummingbird"; "jacamar"; "toucan"; "duck";
    "red-breasted merganser"; "goose"; "black swan"; "tusker"; "echidna"; "platypus"; "wallaby";
    "koala"; "wombat"; "jellyfish"; "sea anemone"; "brain coral"; "flatworm"; "nematode"; "conch";
    "snail"; "slug"; "sea slug"; "chiton"; "chambered nautilus"; "Dungeness crab"; "rock crab";
    "fiddler crab"; "red king crab"; "American lobster"; "spiny lobster"; "crayfish"; "hermit crab";
    "isopod"; "white stork"; "black stork"; "spoonbill"; "flamingo"; "little blue heron";
    "great egret"; "bittern bird"; "crane bird"; "limpkin"; "common gallinule"; "American coot";
    "bustard"; "ruddy turnstone"; "dunlin"; "common redshank"; "dowitcher"; "oystercatcher";
    "pelican"; "king penguin"; "albatross"; "grey whale"; "killer whale"; "dugong"; "sea lion";
    "Chihuahua"; "Japanese Chin"; "Maltese"; "Pekingese"; "Shih Tzu"; "King Charles Spaniel";
    "Papillon"; "toy terrier"; "Rhodesian Ridgeback"; "Afghan Hound"; "Basset Hound"; "Beagle";
    "Bloodhound"; "Bluetick Coonhound"; "Black and Tan Coonhound"; "Treeing Walker Coonhound";
    "English foxhound"; "Redbone Coonhound"; "borzoi"; "Irish Wolfhound"; "Italian Greyhound";
    "Whippet"; "Ibizan Hound"; "Norwegian Elkhound"; "Otterhound"; "Saluki"; "Scottish Deerhound";
    "Weimaraner"; "Staffordshire Bull Terrier"; "American Staffordshire Terrier";
    "Bedlington Terrier"; "Border Terrier"; "Kerry Blue Terrier"; "Irish Terrier";
    "Norfolk Terrier"; "Norwich Terrier"; "Yorkshire Terrier"; "Wire Fox Terrier";
    "Lakeland Terrier"; "Sealyham Terrier"; "Airedale Terrier"; "Cairn Terrier";
    "Australian Terrier"; "Dandie Dinmont Terrier"; "Boston Terrier"; "Miniature Schnauzer";
    "Giant Schnauzer"; "Standard Schnauzer"; "Scottish Terrier"; "Tibetan Terrier";
    "Australian Silky Terrier"; "Soft-coated Wheaten Terrier"; "West Highland White Terrier";
    "Lhasa Apso"; "Flat-Coated Retriever"; "Curly-coated Retriever"; "Golden Retriever";
    "Labrador Retriever"; "Chesapeake Bay Retriever"; "German Shorthaired Pointer"; "Vizsla";
    "English Setter"; "Irish Setter"; "Gordon Setter"; "Brittany dog"; "Clumber Spaniel";
    "English Springer Spaniel"; "Welsh Springer Spaniel"; "Cocker Spaniel"; "Sussex Spaniel";
    "Irish Water Spaniel"; "Kuvasz"; "Schipperke"; "Groenendael dog"; "Malinois"; "Briard";
    "Australian Kelpie"; "Komondor"; "Old English Sheepdog"; "Shetland Sheepdog"; "collie";
    "Border Collie"; "Bouvier des Flandres dog"; "Rottweiler"; "German Shepherd Dog"; "Dobermann";
    "Miniature Pinscher"; "Greater Swiss Mountain Dog"; "Bernese Mountain Dog";
    "Appenzeller Sennenhund"; "Entlebucher Sennenhund"; "Boxer"; "Bullmastiff"; "Tibetan Mastiff";
    "French Bulldog"; "Great Dane"; "St. Bernard"; "husky"; "Alaskan Malamute"; "Siberian Husky";
    "Dalmatian"; "Affenpinscher"; "Basenji"; "pug"; "Leonberger"; "Newfoundland dog";
    "Great Pyrenees dog"; "Samoyed"; "Pomeranian"; "Chow Chow"; "Keeshond"; "brussels griffon";
    "Pembroke Welsh Corgi"; "Cardigan Welsh Corgi"; "Toy Poodle"; "Miniature Poodle";
    "Standard Poodle"; "Mexican hairless dog (xoloitzcuintli)"; "grey wolf"; "Alaskan tundra wolf";
    "red wolf or maned wolf"; "coyote"; "dingo"; "dhole"; "African wild dog"; "hyena"; "red fox";
    "kit fox"; "Arctic fox"; "grey fox"; "tabby cat"; "tiger cat"; "Persian cat"; "Siamese cat";
    "Egyptian Mau"; "cougar"; "lynx"; "leopard"; "snow leopard"; "jaguar"; "lion"; "tiger";
    "cheetah"; "brown bear"; "American black bear"; "polar bear"; "sloth bear"; "mongoose";
    "meerkat"; "tiger beetle"; "ladybug"; "ground beetle"; "longhorn beetle"; "leaf beetle";
    "dung beetle"; "rhinoceros beetle"; "weevil"; "fly"; "bee"; "ant"; "grasshopper";
    "cricket insect"; "stick insect"; "cockroach"; "praying mantis"; "cicada"; "leafhopper";
    "lacewing"; "dragonfly"; "damselfly"; "red admiral butterfly"; "ringlet butterfly";
    "monarch butterfly"; "small white butterfly"; "sulphur butterfly"; "gossamer-winged butterfly";
    "starfish"; "sea urchin"; "sea cucumber"; "cottontail rabbit"; "hare"; "Angora rabbit";
    "hamster"; "porcupine"; "fox squirrel"; "marmot"; "beaver"; "guinea pig"; "common sorrel horse";
    "zebra"; "pig"; "wild boar"; "warthog"; "hippopotamus"; "ox"; "water buffalo"; "bison";
    "ram (adult male sheep)"; "bighorn sheep"; "Alpine ibex"; "hartebeest"; "impala (antelope)";
    "gazelle"; "arabian camel"; "llama"; "weasel"; "mink"; "European polecat";
    "black-footed ferret"; "otter"; "skunk"; "badger"; "armadillo"; "three-toed sloth"; "orangutan";
    "gorilla"; "chimpanzee"; "gibbon"; "siamang"; "guenon"; "patas monkey"; "baboon"; "macaque";
    "langur"; "black-and-white colobus"; "proboscis monkey"; "marmoset"; "white-headed capuchin";
    "howler monkey"; "titi monkey"; "Geoffroy's spider monkey"; "common squirrel monkey";
    "ring-tailed lemur"; "indri"; "Asian elephant"; "African bush elephant"; "red panda";
    "giant panda"; "snoek fish"; "eel"; "silver salmon"; "rock beauty fish"; "clownfish";
    "sturgeon"; "gar fish"; "lionfish"; "pufferfish"; "abacus"; "abaya"; "academic gown";
    "accordion"; "acoustic guitar"; "aircraft carrier"; "airliner"; "airship"; "altar"; "ambulance";
    "amphibious vehicle"; "analog clock"; "apiary"; "apron"; "trash can"; "assault rifle";
    "backpack"; "bakery"; "balance beam"; "balloon"; "ballpoint pen"; "Band-Aid"; "banjo";
    "baluster / handrail"; "barbell"; "barber chair"; "barbershop"; "barn"; "barometer"; "barrel";
    "wheelbarrow"; "baseball"; "basketball"; "bassinet"; "bassoon"; "swimming cap"; "bath towel";
    "bathtub"; "station wagon"; "lighthouse"; "beaker"; "military hat (bearskin or shako)";
    "beer bottle"; "beer glass"; "bell tower"; "baby bib"; "tandem bicycle"; "bikini";
    "ring binder"; "binoculars"; "birdhouse"; "boathouse"; "bobsleigh"; "bolo tie"; "poke bonnet";
    "bookcase"; "bookstore"; "bottle cap"; "hunting bow"; "bow tie"; "brass memorial plaque"; "bra";
    "breakwater"; "breastplate"; "broom"; "bucket"; "buckle"; "bulletproof vest";
    "high-speed train"; "butcher shop"; "taxicab"; "cauldron"; "candle"; "cannon"; "canoe";
    "can opener"; "cardigan"; "car mirror"; "carousel"; "tool kit"; "cardboard box / carton";
    "car wheel"; "automated teller machine"; "cassette"; "cassette player"; "castle"; "catamaran";
    "CD player"; "cello"; "mobile phone"; "chain"; "chain-link fence"; "chain mail"; "chainsaw";
    "storage chest"; "chiffonier"; "bell or wind chime"; "china cabinet"; "Christmas stocking";
    "church"; "movie theater"; "cleaver"; "cliff dwelling"; "cloak"; "clogs"; "cocktail shaker";
    "coffee mug"; "coffeemaker"; "spiral or coil"; "combination lock"; "computer keyboard";
    "candy store"; "container ship"; "convertible"; "corkscrew"; "cornet"; "cowboy boot";
    "cowboy hat"; "cradle"; "construction crane"; "crash helmet"; "crate"; "infant bed";
    "Crock Pot"; "croquet ball"; "crutch"; "cuirass"; "dam"; "desk"; "desktop computer";
    "rotary dial telephone"; "diaper"; "digital clock"; "digital watch"; "dining table";
    "dishcloth"; "dishwasher"; "disc brake"; "dock"; "dog sled"; "dome"; "doormat"; "drilling rig";
    "drum"; "drumstick"; "dumbbell"; "Dutch oven"; "electric fan"; "electric guitar";
    "electric locomotive"; "entertainment center"; "envelope"; "espresso machine"; "face powder";
    "feather boa"; "filing cabinet"; "fireboat"; "fire truck"; "fire screen"; "flagpole"; "flute";
    "folding chair"; "football helmet"; "forklift"; "fountain"; "fountain pen"; "four-poster bed";
    "freight car"; "French horn"; "frying pan"; "fur coat"; "garbage truck";
    "gas mask or respirator"; "gas pump"; "goblet"; "go-kart"; "golf ball"; "golf cart"; "gondola";
    "gong"; "gown"; "grand piano"; "greenhouse"; "radiator grille"; "grocery store"; "guillotine";
    "hair clip"; "hair spray"; "half-track"; "hammer"; "hamper"; "hair dryer"; "hand-held computer";
    "handkerchief"; "hard disk drive"; "harmonica"; "harp"; "combine harvester"; "hatchet";
    "holster"; "home theater"; "honeycomb"; "hook"; "hoop skirt"; "gymnastic horizontal bar";
    "horse-drawn vehicle"; "hourglass"; "iPod"; "clothes iron"; "carved pumpkin"; "jeans"; "jeep";
    "T-shirt"; "jigsaw puzzle"; "rickshaw"; "joystick"; "kimono"; "knee pad"; "knot"; "lab coat";
    "ladle"; "lampshade"; "laptop computer"; "lawn mower"; "lens cap"; "letter opener"; "library";
    "lifeboat"; "lighter"; "limousine"; "ocean liner"; "lipstick"; "slip-on shoe"; "lotion";
    "music speaker"; "loupe magnifying glass"; "sawmill"; "magnetic compass"; "messenger bag";
    "mailbox"; "tights"; "one-piece bathing suit"; "manhole cover"; "maraca"; "marimba"; "mask";
    "matchstick"; "maypole"; "maze"; "measuring cup"; "medicine cabinet"; "megalith"; "microphone";
    "microwave oven"; "military uniform"; "milk can"; "minibus"; "miniskirt"; "minivan"; "missile";
    "mitten"; "mixing bowl"; "mobile home"; "ford model t"; "modem"; "monastery"; "monitor";
    "moped"; "mortar and pestle"; "graduation cap"; "mosque"; "mosquito net"; "vespa";
    "mountain bike"; "tent"; "computer mouse"; "mousetrap"; "moving van"; "muzzle"; "metal nail";
    "neck brace"; "necklace"; "baby pacifier"; "notebook computer"; "obelisk"; "oboe"; "ocarina";
    "odometer"; "oil filter"; "pipe organ"; "oscilloscope"; "overskirt"; "bullock cart";
    "oxygen mask"; "product packet / packaging"; "paddle"; "paddle wheel"; "padlock"; "paintbrush";
    "pajamas"; "palace"; "pan flute"; "paper towel"; "parachute"; "parallel bars"; "park bench";
    "parking meter"; "railroad car"; "patio"; "payphone"; "pedestal"; "pencil case";
    "pencil sharpener"; "perfume"; "Petri dish"; "photocopier"; "plectrum"; "Pickelhaube";
    "picket fence"; "pickup truck"; "pier"; "piggy bank"; "pill bottle"; "pillow"; "ping-pong ball";
    "pinwheel"; "pirate ship"; "drink pitcher"; "block plane"; "planetarium"; "plastic bag";
    "plate rack"; "farm plow"; "plunger"; "Polaroid camera"; "pole"; "police van"; "poncho";
    "pool table"; "soda bottle"; "plant pot"; "potter's wheel"; "power drill"; "prayer rug";
    "printer"; "prison"; "missile"; "projector"; "hockey puck"; "punching bag"; "purse"; "quill";
    "quilt"; "race car"; "racket"; "radiator"; "radio"; "radio telescope"; "rain barrel";
    "recreational vehicle"; "fishing casting reel"; "reflex camera"; "refrigerator";
    "remote control"; "restaurant"; "revolver"; "rifle"; "rocking chair"; "rotisserie"; "eraser";
    "rugby ball"; "ruler measuring stick"; "sneaker"; "safe"; "safety pin"; "salt shaker"; "sandal";
    "sarong"; "saxophone"; "scabbard"; "weighing scale"; "school bus"; "schooner"; "scoreboard";
    "CRT monitor"; "screw"; "screwdriver"; "seat belt"; "sewing machine"; "shield"; "shoe store";
    "shoji screen / room divider"; "shopping basket"; "shopping cart"; "shovel"; "shower cap";
    "shower curtain"; "ski"; "balaclava ski mask"; "sleeping bag"; "slide rule"; "sliding door";
    "slot machine"; "snorkel"; "snowmobile"; "snowplow"; "soap dispenser"; "soccer ball"; "sock";
    "solar thermal collector"; "sombrero"; "soup bowl"; "keyboard space bar"; "space heater";
    "space shuttle"; "spatula"; "motorboat"; "spider web"; "spindle"; "sports car"; "spotlight";
    "stage"; "steam locomotive"; "through arch bridge"; "steel drum"; "stethoscope"; "scarf";
    "stone wall"; "stopwatch"; "stove"; "strainer"; "tram"; "stretcher"; "couch"; "stupa";
    "submarine"; "suit"; "sundial"; "sunglasses"; "sunglasses"; "sunscreen"; "suspension bridge";
    "mop"; "sweatshirt"; "swim trunks / shorts"; "swing"; "electrical switch"; "syringe";
    "table lamp"; "tank"; "tape player"; "teapot"; "teddy bear"; "television"; "tennis ball";
    "thatched roof"; "front curtain"; "thimble"; "threshing machine"; "throne"; "tile roof";
    "toaster"; "tobacco shop"; "toilet seat"; "torch"; "totem pole"; "tow truck"; "toy store";
    "tractor"; "semi-trailer truck"; "tray"; "trench coat"; "tricycle"; "trimaran"; "tripod";
    "triumphal arch"; "trolleybus"; "trombone"; "hot tub"; "turnstile"; "typewriter keyboard";
    "umbrella"; "unicycle"; "upright piano"; "vacuum cleaner"; "vase"; "vaulted or arched ceiling";
    "velvet fabric"; "vending machine"; "vestment"; "viaduct"; "violin"; "volleyball";
    "waffle iron"; "wall clock"; "wallet"; "wardrobe"; "military aircraft"; "sink";
    "washing machine"; "water bottle"; "water jug"; "water tower"; "whiskey jug"; "whistle";
    "hair wig"; "window screen"; "window shade"; "Windsor tie"; "wine bottle"; "airplane wing";
    "wok"; "wooden spoon"; "wool"; "split-rail fence"; "shipwreck"; "sailboat"; "yurt"; "website";
    "comic book"; "crossword"; "traffic or street sign"; "traffic light"; "dust jacket"; "menu";
    "plate"; "guacamole"; "consomme"; "hot pot"; "trifle"; "ice cream"; "popsicle"; "baguette";
    "bagel"; "pretzel"; "cheeseburger"; "hot dog"; "mashed potatoes"; "cabbage"; "broccoli";
    "cauliflower"; "zucchini"; "spaghetti squash"; "acorn squash"; "butternut squash"; "cucumber";
    "artichoke"; "bell pepper"; "cardoon"; "mushroom"; "Granny Smith apple"; "strawberry"; "orange";
    "lemon"; "fig"; "pineapple"; "banana"; "jackfruit"; "cherimoya (custard apple)"; "pomegranate";
    "hay"; "carbonara"; "chocolate syrup"; "dough"; "meatloaf"; "pizza"; "pot pie"; "burrito";
    "red wine"; "espresso"; "tea cup"; "eggnog"; "mountain"; "bubble"; "cliff"; "coral reef";
    "geyser"; "lakeshore"; "promontory"; "sandbar"; "beach"; "valley"; "volcano"; "baseball player";
    "bridegroom"; "scuba diver"; "rapeseed"; "daisy"; "yellow lady's slipper"; "corn"; "acorn";
    "rose hip"; "horse chestnut seed"; "coral fungus"; "agaric"; "gyromitra"; "stinkhorn mushroom";
    "earth star fungus"; "hen of the woods mushroom"; "bolete"; "corn cob"; "toilet paper"
  ].

Definition classnames_clevr_count_all : list string :=
  [
    "three"; "four"; "five"; "six"; "seven"; "eight"; "nine"; "ten"
  ].

Definition classnames_clevr_closest_object_distance : list string :=
  [
    "very nearby"; "nearby"; "near"; ""; "distant"; "very distant"
  ].

Definition classnames_mnist : list string :=
  [
    "0"; "1"; "2"; "3"; "4"; "5"; "6"; "7"; "8"; "9"
  ].

Definition classnames_svhn : list string :=
  [
    "zero"; "one"; "two"; "three"; "four"; "five"; "six"; "seven"; "eight"; "nine"
  ].

Definition classnames_kitti_closest_vehicle_distance : list string :=
  [
    "a photo i took of a car on my left or right side."; "a photo i took with a car nearby.";
    "a photo i took with a car in the distance."; "a photo i took with no car."
  ].

Definition classnames_dmlab : list string :=
  [
    "nearby apple/melon"; "far apple/melon"; "very far apple/melon"; "nearby lemon"; "far lemon";
    "very far lemon"
  ].

Definition classnames_pets : list string :=
  [
    "Abyssinian"; "American Bulldog"; "American Pit Bull Terrier"; "Basset Hound"; "Beagle";
    "Bengal"; "Birman"; "Bombay"; "Boxer"; "British Shorthair"; "Chihuahua"; "Egyptian Mau";
    "English Cocker Spaniel"; "English Setter"; "German Shorthaired"; "Great Pyrenees"; "Havanese";
    "Japanese Chin"; "Keeshond"; "Leonberger"; "Maine Coon"; "Miniature Pinscher"; "Newfoundland";
    "Persian"; "Pomeranian"; "Pug"; "Ragdoll"; "Russian Blue"; "Saint Bernard"; "Samoyed";
    "Scottish Terrier"; "Shiba Inu"; "Siamese"; "Sphynx"; "Staffordshire Bull Terrier";
    "Wheaten Terrier"; "Yorkshire Terrier"
  ].

Definition classnames_pcam : list string :=
  [
    "lymph node"; "lymph node containing metastatic tumor tissue"
  ].

Definition classnames_diabetic_retinopathy : list string :=
  [
    "no diabetic retinopathy"; "mild diabetic retinopathy"; "moderate diabetic retinopathy";
    "severe diabetic retinopathy"; "proliferative diabetic retinopathy"
  ].

Definition classnames : list (string * list string) :=
  [
    ("flowers", classnames_flowers);
    ("gtsrb", classnames_gtsrb);
    ("country211", classnames_country211);
    ("eurosat", classnames_eurosat);
    ("fer2013", classnames_fer2013);
    ("caltech101", classnames_caltech101);
    ("caltech101_vtab", classnames_caltech101_vtab);
    ("imagenet1k", classnames_imagenet1k);
    ("clevr_count_all", classnames_clevr_count_all);
    ("clevr_closest_object_distance", classnames_clevr_closest_object_distance);
    ("mnist", classnames_mnist);
    ("svhn", classnames_svhn);
    ("kitti_closest_vehicle_distance", classnames_kitti_closest_vehicle_distance);
    ("dmlab", classnames_dmlab);
    ("pets", classnames_pets);
    ("pcam", classnames_pcam);
    ("diabetic_retinopathy", classnames_diabetic_retinopathy)
  ].

Definition VTAB_19TASKS : list string :=
  [
    "vtab/caltech101"; "vtab/cifar100"; "vtab/clevr_count_all";
    "vtab/clevr_closest_object_distance"; "vtab/diabetic_retinopathy"; "vtab/dmlab";
    "vtab/dsprites_label_orientation"; "vtab/dsprites_label_x_position"; "vtab/dtd"; "vtab/eurosat";
    "vtab/kitti_closest_vehicle_distance"; "vtab/flowers"; "vtab/pets"; "vtab/pcam";
    "vtab/resisc45"; "vtab/smallnorb_label_azimuth"; "vtab/smallnorb_label_elevation"; "sun397";
    "vtab/svhn"
  ].

(** [DEFAULT_ZEROSHOT_CLASSIFICATION_TEMPLATES = zeroshot_classification_templates["imagenet1k"]] *)
Definition DEFAULT_ZEROSHOT_CLASSIFICATION_TEMPLATES : list string :=
  dict_get zeroshot_classification_templates "imagenet1k" [].

End Tables.

Export Tables.

(** ** Dataset handles and the world of backends *)

(** A dataset handle, as far as the builder looks into one: the [classes]
    attribute (absent on some backends until the builder sets it), the stored
    samples (an image and its integer label), and the [target_transform]
    attribute. *)
Record dataset : Type := mk_dataset {
  classes : option (list string);
  samples : list (pyval * Z);
  target_transform : option (Z -> Z)
}.

Definition set_classes (ds : dataset) (cs : list string) : dataset :=
  {| classes := Some cs;
     samples := samples ds;
     target_transform := target_transform ds |}.

Definition set_target_transform (ds : dataset) (f : Z -> Z) : dataset :=
  {| classes := classes ds;
     samples := samples ds;
     target_transform := Some f |}.

(** [ds[i]] of a torchvision classification dataset: the stored sample, its
    label passed through [target_transform] when one is set. *)
Definition getitem (ds : dataset) (i : nat) : Eff (pyval * Z) :=
  s <- index (samples ds) i ;;
  ret (fst s, match target_transform ds with
              | Some f => f (snd s)
              | None => snd s
              end).

(** A task_adaptation data object: the object itself, and the label names
    its dataset builder reports for a feature
    ([_dataset_builder.info.features[task].names]). *)
Record tfds_adapter : Type := mk_adapter {
  adapter_obj : nat;
  feature_names : string -> outcome (list string)
}.

(** A [tfds.builder]: what [download_and_prepare()] does, the names of its
    splits, and [info.features['label'].names]. *)
Record tfds_builder_t : Type := mk_builder {
  download_and_prepare : outcome unit;
  info_splits : list string;
  info_label_names : outcome (list string)
}.

(** Everything outside the module: the file system, the dataset backends,
    the tensorflow helpers of [.tfds], and torch's [default_collate].  A
    backend is asked with the name of the callable and the arguments of the
    call, and answers with a handle or fails (binding of the arguments
    included). *)
Record world : Type := mk_world {
  path_exists : string -> bool;
  construct : string -> list pyval -> kwargs -> outcome dataset;
  adapter : string -> list pyval -> kwargs -> outcome tfds_adapter;
  disable_gpus_on_tensorflow : outcome unit;
  download_tfds_dataset : string -> string -> outcome unit;
  tfds_builder : string -> string -> outcome tfds_builder_t;
  default_collate : list pyval -> outcome pyval
}.

(** ** The builder *)

Section Builder.

Variable w : world.

Import PyStr.

Definition lift {A} (o : outcome A) : Eff A := ([], o).

(** A call of a dataset backend. *)
Definition backend (callee : string) (pos : list pyval) (kw : kwargs) : Eff dataset :=
  call callee pos kw (construct w callee pos kw).

(** A call of a task_adaptation data class. *)
Definition data_class (callee : string) (pos : list pyval) (kw : kwargs) : Eff tfds_adapter :=
  call callee pos kw (adapter w callee pos kw).

(** [os.path.exists(p)]: [os.stat] refuses [None] with a [TypeError], which
    [os.path.exists] does not catch. *)
Definition os_path_exists (p : option string) : Eff bool :=
  match p with
  | Some s => ret (path_exists w s)
  | None =>
      raise (TypeError
        "stat: path should be string, bytes, os.PathLike or integer, not NoneType")
  end.

Definition opt_str (p : option string) : pyval :=
  match p with Some s => PStr s | None => PNone end.

Definition opt_strlist (p : option (list string)) : pyval :=
  match p with Some l => PStrList l | None => PNone end.

(** [" ".join(s.split("_"))] *)
Definition underscores_to_spaces (s : string) : string :=
  join " " (split "_"%char s).

(** [ds.classes = list(map(lambda s: " ".join(s.split("_")), ds.classes))] *)
Definition respace_classes (ds : dataset) : Eff dataset :=
  match classes ds with
  | Some cs => ret (set_classes ds (map underscores_to_spaces cs))
  | None => raise (AttributeError "classes")
  end.

Definition train_or (train : bool) (other : string) : pyval :=
  PStr (if train then "train" else other).

Definition coco_message : string :=
  "You need to download this dataset manually. Please download the dataset from https://cocodataset.org/".
Definition flickr30k_message : string :=
  "You need to download this dataset manually. Please download the dataset from https://www.kaggle.com/datasets/adityajn105/flickr30k".
Definition flickr8k_message : string :=
  "You need to download this dataset manually. Please download the dataset from https://www.kaggle.com/datasets/adityajn105/flickr8k".
Definition fer2013_message : string :=
  "You need to download this dataset manually. Please download the dataset from https://www.kaggle.com/datasets/msambare/fer2013".

(** [_extract_task]:
    [prefix, *task_name_list = dataset_name.split("_")],
    [task = "_".join(task_name_list)]. *)
Definition _extract_task (dataset_name : string) : string :=
  match split "_"%char dataset_name with
  | [] => EmptyString
  | _prefix :: task_name_list => join "_" task_name_list
  end.

(** The tasks the kitti branch asserts membership in. *)
Definition kitti_tasks : list string :=
  [ "count_all"; "count_left"; "count_far"; "count_near";
    "closest_object_distance"; "closest_object_x_location";
    "count_vehicles"; "closest_vehicle_distance" ].

(** The [if]/[elif] chain of [build_vtab_dataset]: the task_adaptation data
    object and the [classes] override ([None] when the chain leaves it). *)
Definition vtab_select (dataset_name data_dir : string)
  : Eff (tfds_adapter * option (list string)) :=
  let dd := ("data_dir", PStr data_dir) in
  if dataset_name =? "caltech101" then
    tfds_dataset <- data_class "task_adaptation.data.caltech.Caltech101" [] [dd] ;;
    cs <- subscript classnames "caltech101_vtab" ;;
    ret (tfds_dataset, Some cs)
  else if dataset_name =? "cars" then
    tfds_dataset <- data_class "task_adaptation.data.cars.CarsData" [] [dd] ;;
    ret (tfds_dataset, None)
  else if str_in dataset_name ["cifar10"; "cifar100"] then
    tfds_dataset <- data_class "task_adaptation.data.cifar.CifarData" []
      [dd; ("num_classes", PInt (if dataset_name =? "cifar10" then 10 else 100))] ;;
    ret (tfds_dataset, None)
  else if startswith dataset_name "clevr_" then
    let task := _extract_task dataset_name in
    assert_ (str_in task ["count_all"; "closest_object_distance"]) ;;;
    tfds_dataset <- data_class "task_adaptation.data.clevr.CLEVRData" []
      [("task", PStr task); dd] ;;
    if task =? "count_all" then
      cs <- subscript classnames "clevr_count_all" ;;
      ret (tfds_dataset, Some cs)
    else if task =? "closest_object_distance" then
      cs <- subscript classnames "clevr_closest_object_distance" ;;
      ret (tfds_dataset, Some cs)
    else raise (ValueError ("non supported: " ++ task))
  else if dataset_name =? "cub" then
    tfds_dataset <- data_class "task_adaptation.data.cub.CUB2011Data" [] [dd] ;;
    ret (tfds_dataset, None)
  else if dataset_name =? "diabetic_retinopathy" then
    tfds_dataset <- data_class "task_adaptation.data.diabetic_retinopathy.RetinopathyData" []
      [("config", PStr "btgraham-300"); dd] ;;
    cs <- subscript classnames "diabetic_retinopathy" ;;
    ret (tfds_dataset, Some cs)
  else if dataset_name =? "dmlab" then
    call "download_tfds_dataset" [PStr "dmlab"] [dd]
         (download_tfds_dataset w "dmlab" data_dir) ;;;
    tfds_dataset <- data_class "task_adaptation.data.dmlab.DmlabData" [] [dd] ;;
    cs <- subscript classnames "dmlab" ;;
    ret (tfds_dataset, Some cs)
  else if startswith dataset_name "dsprites_" then
    let task := _extract_task dataset_name in
    assert_ (str_in task ["label_shape"; "label_scale"; "label_orientation";
                          "label_x_position"; "label_y_position"]) ;;;
    tfds_dataset <- data_class "task_adaptation.data.dsprites.DSpritesData"
      [PStr task] [dd] ;;
    ret (tfds_dataset, None)
  else if dataset_name =? "dtd" then
    tfds_dataset <- data_class "task_adaptation.data.dtd.DTDData" [] [dd] ;;
    ret (tfds_dataset, None)
  else if dataset_name =? "eurosat" then
    tfds_dataset <- data_class "task_adaptation.data.eurosat.EurosatData" []
      [("subset", PStr "rgb"); ("data_key", PStr "image"); dd] ;;
    cs <- subscript classnames "eurosat" ;;
    ret (tfds_dataset, Some cs)
  else if dataset_name =? "food101" then
    tfds_dataset <- data_class "task_adaptation.data.food101.Food101Data" [] [dd] ;;
    ret (tfds_dataset, None)
  else if dataset_name =? "inaturalist" then
    tfds_dataset <- data_class "task_adaptation.data.inaturalist.INaturalistData" []
      [dd; ("year", PInt 2017)] ;;
    ret (tfds_dataset, None)
  else if startswith dataset_name "kitti_" then
    let task := _extract_task dataset_name in
    assert_ (str_in task kitti_tasks) ;;;
    tfds_dataset <- data_class "kitti.KittiData" [] [("task", PStr task); dd] ;;
    if task =? "closest_vehicle_distance" then
      cs <- subscript classnames "kitti_closest_vehicle_distance" ;;
      ret (tfds_dataset, Some cs)
    else raise (ValueError ("Unsupported task: " ++ task))
  else if dataset_name =? "flowers" then
    tfds_dataset <- data_class "task_adaptation.data.oxford_flowers102.OxfordFlowers102Data"
      [] [dd] ;;
    ret (tfds_dataset, None)
  else if dataset_name =? "pets" then
    tfds_dataset <- data_class "task_adaptation.data.oxford_iiit_pet.OxfordIIITPetData"
      [] [dd] ;;
    cs <- subscript classnames "pets" ;;
    ret (tfds_dataset, Some cs)
  else if dataset_name =? "pcam" then
    tfds_dataset <- data_class "task_adaptation.data.patch_camelyon.PatchCamelyonData"
      [] [dd] ;;
    cs <- subscript classnames "pcam" ;;
    ret (tfds_dataset, Some cs)
  else if dataset_name =? "resisc45" then
    tfds_dataset <- data_class "task_adaptation.data.resisc45.Resisc45Data" [] [dd] ;;
    ret (tfds_dataset, None)
  else if startswith dataset_name "smallnorb_" then
    let task := _extract_task dataset_name in
    assert_ (str_in task ["label_category"; "label_elevation"; "label_azimuth";
                          "label_lighting"]) ;;;
    tfds_dataset <- data_class "task_adaptation.data.smallnorb.SmallNORBData" []
      [("predicted_attribute", PStr task); dd] ;;
    cs <- lift (feature_names tfds_dataset task) ;;
    ret (tfds_dataset, Some cs)
  else if dataset_name =? "sun397" then
    tfds_dataset <- data_class "task_adaptation.data.sun397.Sun397Data" []
      [("config", PStr "tfds"); dd] ;;
    ret (tfds_dataset, None)
  else if dataset_name =? "svhn" then
    tfds_dataset <- data_class "task_adaptation.data.svhn.SvhnData" [] [dd] ;;
    cs <- subscript classnames "svhn" ;;
    ret (tfds_dataset, Some cs)
  else raise (ValueError ("Unsupported dataset: " ++ dataset_name)).

(** [build_vtab_dataset(dataset_name, transform, download=True,
    split="test", data_dir="root")] *)
Definition build_vtab_dataset (dataset_name : string) (transform : pyval)
           (download : bool) (split data_dir : string) : Eff dataset :=
  call "disable_gpus_on_tensorflow" [] [] (disable_gpus_on_tensorflow w) ;;;
  sel <- vtab_select dataset_name data_dir ;;
  backend "VTABIterableDataset" [PObj (adapter_obj (fst sel))]
    [ ("input_name", PStr "image"); ("label_name", PStr "label");
      ("transform", transform);
      ("target_transform", PBuiltin "int");
      ("split", PStr split);
      ("classes", opt_strlist (snd sel)) ].

(** [build_tfds_dataset(name, transform, download=True, split="test",
    data_dir="root", classes=None)] *)
Definition build_tfds_dataset (name : string) (transform : pyval)
           (download : bool) (split data_dir : string)
           (classes_ : option (list string)) : Eff dataset :=
  call "disable_gpus_on_tensorflow" [] [] (disable_gpus_on_tensorflow w) ;;;
  builder <- call "tfds.builder" [PStr name] [("data_dir", PStr data_dir)]
                  (tfds_builder w name data_dir) ;;
  (if download
   then call "builder.download_and_prepare" [] [] (download_and_prepare builder)
   else ret tt) ;;;
  let splits := info_splits builder in
  assert_ (str_in split splits) ;;;
  ds <- backend "timm.data.create_dataset" [PStr ("tfds/" ++ name); PStr data_dir]
          [ ("split", PStr split); ("transform", transform);
            ("target_transform", PBuiltin "int") ] ;;
  cs <- match classes_ with
        | None => lift (info_label_names builder)
        | Some c => ret c
        end ;;
  ret (set_classes ds cs).

(** [build_dataset(dataset_name, root="root", transform=None, split="test",
    download=True, annotation_file=None, **kwargs)] *)
Definition build_dataset (dataset_name root : string) (transform : pyval)
           (split : string) (download : bool) (annotation_file : option string)
           (kw : kwargs) : Eff dataset :=
  let train := (split =? "train") in
  let r := ("root", PStr root) in
  let t := ("transform", transform) in
  let d := ("download", PBool download) in
  if dataset_name =? "cifar10" then
    backend "CIFAR10" [] ([r; ("train", PBool train); t; d] ++ kw)
  else if dataset_name =? "cifar100" then
    backend "CIFAR100" [] ([r; ("train", PBool train); t; d] ++ kw)
  else if dataset_name =? "imagenet1k" then
    ds <- backend "ImageNet" [] ([r; ("split", train_or train "val"); t] ++ kw) ;;
    cs <- subscript classnames "imagenet1k" ;;
    ret (set_classes ds cs)
  else if dataset_name =? "voc2007" then
    backend "voc2007.PASCALVoc2007" [] ([r; ("set", train_or train "test"); t; d] ++ kw)
  else if dataset_name =? "mscoco_captions" then
    present <- os_path_exists annotation_file ;;
    (if negb present then print coco_message else ret tt) ;;;
    backend "CocoCaptions" [] ([r; ("annFile", opt_str annotation_file); t] ++ kw)
  else if dataset_name =? "flickr30k" then
    present <- os_path_exists annotation_file ;;
    (if negb present then print flickr30k_message ;;; sys_exit 1 else ret tt) ;;;
    backend "flickr.Flickr" [] ([r; ("ann_file", opt_str annotation_file); t] ++ kw)
  else if dataset_name =? "flickr8k" then
    present <- os_path_exists annotation_file ;;
    (if negb present then print flickr8k_message ;;; sys_exit 1 else ret tt) ;;;
    backend "flickr.Flickr" [] ([r; ("ann_file", opt_str annotation_file); t] ++ kw)
  else if dataset_name =? "food101" then
    ds <- backend "Food101" [] ([r; ("split", train_or train "test"); t; d] ++ kw) ;;
    respace_classes ds
  else if dataset_name =? "sun397" then
    ds <- backend "SUN397" [] ([r; t; d] ++ kw) ;;
    respace_classes ds
  else if dataset_name =? "cars" then
    backend "StanfordCars" [] ([r; ("split", train_or train "test"); t; d] ++ kw)
  else if dataset_name =? "fgvc_aircraft" then
    backend "FGVCAircraft" []
      ([r; ("annotation_level", PStr "variant"); ("split", train_or train "test"); t; d] ++ kw)
  else if dataset_name =? "dtd" then
    backend "DTD" [] ([r; ("split", train_or train "test"); t; d] ++ kw)
  else if dataset_name =? "pets" then
    backend "OxfordIIITPet" []
      ([r; ("split", train_or train "test"); ("target_types", PStr "category"); t; d] ++ kw)
  else if dataset_name =? "caltech101" then
    ds <- backend "caltech101.Caltech101" []
            ([r; ("target_type", PStr "category"); t; d] ++ kw) ;;
    cs <- subscript classnames "caltech101" ;;
    ret (set_classes ds cs)
  else if dataset_name =? "flowers" then
    ds <- backend "Flowers102" [] ([r; ("split", train_or train "test"); t; d] ++ kw) ;;
    first <- getitem ds 0 ;;
    let ds := if (snd first =? 1)%Z
              then set_target_transform ds (fun y => y - 1)%Z
              else ds in
    cs <- subscript classnames "flowers" ;;
    ret (set_classes ds cs)
  else if dataset_name =? "mnist" then
    ds <- backend "MNIST" [] ([r; ("train", PBool train); t; d] ++ kw) ;;
    cs <- subscript classnames "mnist" ;;
    ret (set_classes ds cs)
  else if dataset_name =? "stl10" then
    backend "STL10" [] ([r; ("split", train_or train "test"); t; d] ++ kw)
  else if dataset_name =? "eurosat" then
    ds <- backend "EuroSAT" [] ([r; t; d] ++ kw) ;;
    cs <- subscript classnames "eurosat" ;;
    ret (set_classes ds cs)
  else if dataset_name =? "gtsrb" then
    ds <- backend "GTSRB" [] ([r; ("split", train_or train "test"); t; d] ++ kw) ;;
    cs <- subscript classnames "gtsrb" ;;
    ret (set_classes ds cs)
  else if dataset_name =? "country211" then
    ds <- backend "Country211" [] ([r; ("split", train_or train "test"); t; d] ++ kw) ;;
    cs <- subscript classnames "country211" ;;
    ret (set_classes ds cs)
  else if dataset_name =? "pcam" then
    ds <- backend "PCAM" [] ([r; ("split", train_or train "test"); t; d] ++ kw) ;;
    cs <- subscript classnames "pcam" ;;
    ret (set_classes ds cs)
  else if dataset_name =? "renderedsst2" then
    backend "RenderedSST2" [] ([r; ("split", train_or train "test"); t; d] ++ kw)
  else if dataset_name =? "fer2013" then
    let root := os_path_join root (if train then "train" else "test") in
    present <- os_path_exists (Some root) ;;
    (if negb present then print fer2013_message else ret tt) ;;;
    ds <- backend "ImageFolder" [] [("root", PStr root); t] ;;
    cs <- subscript classnames "fer2013" ;;
    ret (set_classes ds cs)
  else if startswith dataset_name "tfds/" then
    match PyStr.split "/"%char dataset_name with
    | [] => raise (ValueError "not enough values to unpack (expected at least 1, got 0)")
    | _prefix :: name_list =>
        let name := join "/" name_list in
        build_tfds_dataset name transform download split root None
    end
  else if startswith dataset_name "vtab/" then
    match PyStr.split "/"%char dataset_name with
    | [] => raise (ValueError "not enough values to unpack (expected at least 1, got 0)")
    | _prefix :: name_list =>
        let name := join "/" name_list in
        build_vtab_dataset name transform download split root
    end
  else raise (ValueError ("Unsupported dataset: " ++ dataset_name ++ ".")).

(** ** Collation *)

(** The two collators [get_dataset_collate_fn] chooses between. *)
Inductive collate_fn : Type :=
| image_captions_collate
| default_collate_.

(** [get_dataset_collate_fn(dataset_name)] *)
Definition get_dataset_collate_fn (dataset_name : string) : collate_fn :=
  if str_in dataset_name ["mscoco_captions"; "flickr30k"; "flickr8k"]
  then image_captions_collate
  else default_collate_.

(** [first row, other rows]: the heads and the tails of the rows, when
    every row has a head. *)
Fixpoint heads_tails {A} (rows : list (list A)) : option (list A * list (list A)) :=
  match rows with
  | [] => Some ([], [])
  | [] :: _ => None
  | (x :: r) :: rows' =>
      match heads_tails rows' with
      | Some (hs, ts) => Some (x :: hs, r :: ts)
      | None => None
      end
  end.

Fixpoint zip_columns {A} (row : list A) (rows : list (list A)) : list (list A) :=
  match row with
  | [] => []
  | x :: row' =>
      match heads_tails rows with
      | Some (hs, ts) => (x :: hs) :: zip_columns row' ts
      | None => []
      end
  end.

(** the list of [zip] over the unpacked rows: the columns of the rows, as many as the shortest
    row has entries; none when there is no row. *)
Definition zip_star {A} (rows : list (list A)) : list (list A) :=
  match rows with
  | [] => []
  | row :: rows' => zip_columns row rows'
  end.

(** [image_captions_collate_fn(batch)]: a sample is a tuple, the batch a
    list of samples. *)
Definition image_captions_collate_fn (batch : list (list pyval))
  : Eff (pyval * list pyval) :=
  let transposed := zip_star batch in
  column0 <- index transposed 0 ;;
  imgs <- lift (default_collate w column0) ;;
  texts <- index transposed 1 ;;
  ret (imgs, texts).

(** ** Prompt templates *)

(** [get_zeroshot_classification_templates(dataset_name)] *)
Definition get_zeroshot_classification_templates (dataset_name : string)
  : Eff (list string) :=
  name <- (if startswith dataset_name "tfds/" || startswith dataset_name "vtab/"
           then index (split "/"%char dataset_name) 1
           else ret dataset_name) ;;
  ret (dict_get zeroshot_classification_templates name
                DEFAULT_ZEROSHOT_CLASSIFICATION_TEMPLATES).

End Builder.

(** ** Vocabulary of the properties *)

(** The identifiers [build_dataset] compares its argument with, in the order
    of the [if]/[elif] chain. *)
Definition known_identifiers : list string :=
  [ "cifar10"; "cifar100"; "imagenet1k"; "voc2007"; "mscoco_captions";
    "flickr30k"; "flickr8k"; "food101"; "sun397"; "cars"; "fgvc_aircraft";
    "dtd"; "pets"; "caltech101"; "flowers"; "mnist"; "stl10"; "eurosat";
    "gtsrb"; "country211"; "pcam"; "renderedsst2"; "fer2013" ].

(** The caption corpora. *)
Definition caption_identifiers : list string :=
  [ "mscoco_captions"; "flickr30k"; "flickr8k" ].



(** The names of the keywords of a keyword bag, in its order. *)
Definition keyword_names (kw : kwargs) : list string := map fst kw.

(** Python binds the keywords of a call before it enters the callee, and
    refuses a call that gives one keyword twice with a [TypeError]: a call
    enters its callee only with keywords that all differ. *)
Definition binds_keywords (e : event) : Prop :=
  match e with
  | ECall _ _ kw => NoDup (keyword_names kw)
  | EPrint _ => False
  end.


(** The identifiers whose [classes] the builder takes from [classnames],
    each with its class count: the number of names the vocabulary holds. *)
Definition curated_class_counts : list (string * nat) :=
  [ ("imagenet1k", 1000); ("caltech101", 102); ("flowers", 102); ("mnist", 10);
    ("eurosat", 10); ("gtsrb", 43); ("country211", 211); ("pcam", 2);
    ("fer2013", 7) ].

(** The text every manual-download message starts with. *)
Definition manual_download_notice (url : string) : string :=
  ("You need to download this dataset manually. Please download the dataset from "
     ++ url)%string.



(** The events of the vtab path. *)
Definition disable_call : event := ECall "disable_gpus_on_tensorflow" [] [].

Definition kitti_call (task data_dir : string) : event :=
  ECall "kitti.KittiData" [] [("task", PStr task); ("data_dir", PStr data_dir)].

Definition vtab_iterable_args (transform : pyval) (split : string)
           (cs : option (list string)) : kwargs :=
  [ ("input_name", PStr "image"); ("label_name", PStr "label");
    ("transform", transform); ("target_transform", PBuiltin "int");
    ("split", PStr split); ("classes", opt_strlist cs) ].

(** A caption sample [(image, captions)] as the tuple a dataset yields, and
    the caption lists of a batch of them, in batch order. *)
Definition sample_of (p : pyval * list string) : list pyval :=
  [fst p; PStrList (snd p)].

Definition captions_of (batch : list (pyval * list string)) : list pyval :=
  map (fun p => PStrList (snd p)) batch.

(** *** The template lookup as the specification words it *)

Definition namespaced (s : string) : bool :=
  PyStr.startswith s "tfds/" || PyStr.startswith s "vtab/".

(** The identifier without a leading [tfds/] or [vtab/]. *)
Definition strip_namespace (s : string) : string :=
  if namespaced s then substring 5 (String.length s - 5) s else s.

(** The template set of a name, or the default (imagenet1k) set. *)
Definition templates_of (name : string) : list string :=
  dict_get zeroshot_classification_templates name templates_imagenet1k.

(** Strip the namespace, then look the stripped name up. *)
Definition get_templates_spec (identifier : string) : list string :=
  templates_of (strip_namespace identifier).

(** The piece of a name before its first slash. *)
Definition first_segment (s : string) : string :=
  hd EmptyString (PyStr.split "/" s).

(** ** Fixtures: concrete worlds to run the builder in *)

Module Fixture.

(** A backend handle with the given stored samples and nothing else set. *)
Definition handle (l : list (pyval * Z)) : dataset :=
  {| classes := None; samples := l; target_transform := None |}.

(** A flowers backend of an older torchvision: labels start at 1. *)
Definition one_based : dataset := handle [(PObj 0, 1%Z); (PObj 1, 5%Z)].

(** A flowers backend of a newer torchvision: labels start at 0. *)
Definition zero_based : dataset := handle [(PObj 0, 0%Z); (PObj 1, 4%Z)].

(** A world with no file at all, in which every backend answers. *)
Definition world_of (ds : dataset) : world :=
  {| path_exists := fun _ => false;
     construct := fun _ _ _ => Ret ds;
     adapter := fun _ _ _ => Ret {| adapter_obj := 7; feature_names := fun _ => Ret [] |};
     disable_gpus_on_tensorflow := Ret tt;
     download_tfds_dataset := fun _ _ => Ret tt;
     tfds_builder := fun _ _ =>
       Ret {| download_and_prepare := Ret tt;
              info_splits := ["train"; "test"];
              info_label_names := Ret ["a"; "b"] |};
     default_collate := fun l => Ret (PObj (List.length l)) |}.

Definition empty_disk : world := world_of one_based.
Definition newer_torchvision : world := world_of zero_based.


End Fixture.

(** ** Proof automation *)

(** Case analysis on membership in a list written out. *)
Ltac in_cases H :=
  repeat (destruct H as [H|H]; [subst|]); try contradiction.

(** Settles the tests of an [if]/[elif] chain on a name that starts with
    known characters: every test that computes to [false] is replaced. *)
Ltac name_tests name :=
  repeat match goal with
    | |- context [String.eqb name ?s] => change (String.eqb name s) with false
    | |- context [PyStr.str_in name ?l] => change (PyStr.str_in name l) with false
    | |- context [PyStr.startswith name ?p] => change (PyStr.startswith name p) with false
    end.

(** Uses what the world answers to every call, on the call of the goal. *)
Ltac answer w Hw h Hs :=
  match goal with
  | |- context [construct w ?c ?p ?k] => destruct (Hw c p k) as (h & -> & Hs)
  end.

(** ** Vocabulary of the further properties *)

From Stdlib Require Import Permutation.

(** [s.replace(a, b)] for two characters. *)
Fixpoint replace_char (a b : ascii) (s : string) : string :=
  match s with
  | EmptyString => EmptyString
  | String c s' => String (if Ascii.eqb c a then b else c) (replace_char a b s')
  end.

(** The number of places of a template at which the slot [{c}] starts. *)
Fixpoint count_slot (s : string) : nat :=
  match s with
  | EmptyString => 0
  | String _ s' => (if PyStr.startswith s "{c}" then 1 else 0) + count_slot s'
  end.

(** The calls of a trace, and its printed messages. *)
Definition is_call (e : event) : bool :=
  match e with
  | ECall _ _ _ => true
  | EPrint _ => false
  end.

Definition calls (t : list event) : list event := filter is_call t.

Definition prints (t : list event) : list event :=
  filter (fun e => negb (is_call e)) t.

(** The identifiers whose branch checks a manually downloaded artifact. *)
Definition gated_identifiers : list string :=
  [ "mscoco_captions"; "flickr30k"; "flickr8k"; "fer2013" ].

(** The identifiers whose branch never looks at [split]. *)
Definition split_blind_identifiers : list string :=
  [ "mscoco_captions"; "flickr30k"; "flickr8k"; "sun397"; "caltech101"; "eurosat" ].

(** The identifiers whose branch never looks at [download]. *)
Definition download_blind_identifiers : list string :=
  [ "imagenet1k"; "mscoco_captions"; "flickr30k"; "flickr8k"; "fer2013" ].

(** The names [build_vtab_dataset] compares its argument with, and the
    prefixes of its task families. *)
Definition vtab_names : list string :=
  [ "caltech101"; "cars"; "cifar10"; "cifar100"; "cub"; "diabetic_retinopathy";
    "dmlab"; "dtd"; "eurosat"; "food101"; "inaturalist"; "flowers"; "pets";
    "pcam"; "resisc45"; "sun397"; "svhn" ].

Definition vtab_families : list string :=
  [ "clevr_"; "dsprites_"; "kitti_"; "smallnorb_" ].

(** The tasks the clevr, dsprites and smallnorb branches assert. *)
Definition clevr_tasks : list string := [ "count_all"; "closest_object_distance" ].

Definition dsprites_tasks : list string :=
  [ "label_shape"; "label_scale"; "label_orientation"; "label_x_position";
    "label_y_position" ].

Definition smallnorb_tasks : list string :=
  [ "label_category"; "label_elevation"; "label_azimuth"; "label_lighting" ].

(** Whether two lists hold the same strings, each as often: every string of
    the first is struck once from the second, and nothing is left. *)
Fixpoint strike (x : string) (l : list string) : option (list string) :=
  match l with
  | [] => None
  | y :: l' =>
      if String.eqb x y then Some l'
      else match strike x l' with
           | Some r => Some (y :: r)
           | None => None
           end
  end.

Fixpoint same_strings (l1 l2 : list string) : bool :=
  match l1 with
  | [] => match l2 with [] => true | _ => false end
  | x :: l1' =>
      match strike x l2 with
      | Some r => same_strings l1' r
      | None => false
      end
  end.

(** Whether no string of a list stands in it twice. *)
Fixpoint distinct (l : list string) : bool :=
  match l with
  | [] => true
  | x :: l' => negb (PyStr.str_in x l') && distinct l'
  end.

(** A world whose collaborators all answer: every backend with a handle that
    has [classes], every data class with an object that knows the label
    names of every feature, and the tensorflow helpers by returning. *)
Definition answering (w : world) : Prop :=
  (forall callee pos kw, exists h cs, construct w callee pos kw = Ret h /\ classes h = Some cs)
  /\ (forall callee pos kw, exists a,
        adapter w callee pos kw = Ret a
        /\ forall feature, exists names, feature_names a feature = Ret names)
  /\ disable_gpus_on_tensorflow w = Ret tt
  /\ (forall name data_dir, download_tfds_dataset w name data_dir = Ret tt).

(** A world none of whose collaborators ends the process. *)
Definition never_exits (w : world) : Prop :=
  (forall callee pos kw code, construct w callee pos kw <> Exit code)
  /\ (forall callee pos kw code, adapter w callee pos kw <> Exit code)
  /\ (forall callee pos kw a feature code,
        adapter w callee pos kw = Ret a -> feature_names a feature <> Exit code)
  /\ (forall code, disable_gpus_on_tensorflow w <> Exit code)
  /\ (forall name data_dir code, download_tfds_dataset w name data_dir <> Exit code)
  /\ (forall name data_dir code, tfds_builder w name data_dir <> Exit code)
  /\ (forall name data_dir b code,
        tfds_builder w name data_dir = Ret b ->
        download_and_prepare b <> Exit code /\ info_label_names b <> Exit code).

(** A sample with at least an image and a target, whatever follows them. *)
Definition has_two {A} (row : list A) : Prop :=
  exists x y rest, row = x :: y :: rest.

(** The events of the tfds path. *)
Definition tfds_builder_call (name data_dir : string) : event :=
  ECall "tfds.builder" [PStr name] [("data_dir", PStr data_dir)].

Definition prepare_call : event := ECall "builder.download_and_prepare" [] [].

Definition create_dataset_args (name data_dir : string) : list pyval :=
  [PStr ("tfds/" ++ name)%string; PStr data_dir].

Definition create_dataset_options (transform : pyval) (split : string) : kwargs :=
  [ ("split", PStr split); ("transform", transform);
    ("target_transform", PBuiltin "int") ].

(** The events of [build_tfds_dataset] up to the check of the split. *)
Definition tfds_prelude (name data_dir : string) (download : bool) : list event :=
  [disable_call; tfds_builder_call name data_dir]
    ++ (if download then [prepare_call] else []).

(** The first and the second component of a sample. *)
Definition component0 (row : list pyval) : pyval := nth 0 row PNone.
Definition component1 (row : list pyval) : pyval := nth 1 row PNone.

(** *** More fixtures *)

Module Fixture2.

(** A backend handle with underscored class names, as Food101 has them. *)
Definition underscored : dataset :=
  {| classes := Some ["apple_pie"; "baby_back_ribs"; "sushi"];
     samples := [(PObj 0, 0%Z)];
     target_transform := None |}.

(** A world in which the annotation file and the fer2013 folders are there,
    and every backend answers with [underscored]. *)
Definition full_disk : world :=
  {| path_exists := fun _ => true;
     construct := fun _ _ _ => Ret underscored;
     adapter := fun _ _ _ =>
       Ret {| adapter_obj := 7; feature_names := fun _ => Ret ["0"; "1"] |};
     disable_gpus_on_tensorflow := Ret tt;
     download_tfds_dataset := fun _ _ => Ret tt;
     tfds_builder := fun _ _ =>
       Ret {| download_and_prepare := Ret tt;
              info_splits := ["train"; "test"];
              info_label_names := Ret ["a"; "b"] |};
     default_collate := fun l => Ret (PObj (List.length l)) |}.

(** A flowers handle on which the caller has set a [target_transform] of
    their own: it adds 1 to every label. *)
Definition shifted : dataset :=
  {| classes := None;
     samples := [(PObj 0, 0%Z); (PObj 1, 4%Z)];
     target_transform := Some (fun y => (y + 1)%Z) |}.

(** A backend with no sample at all. *)
Definition no_sample : dataset :=
  {| classes := None; samples := []; target_transform := None |}.

End Fixture2.

(** *** More proof automation *)

(** Follows a run that is said to end the process down to the step that
    ends it: through [bind], through the tests, and past the steps of the
    module that cannot end it. *)
Ltac chase lemma_bind lemma_subscript lemma_assert H :=
  lazymatch type of H with
  | result (bind _ _) = Exit _ =>
      let a := fresh "a" in
      let H1 := fresh "H" in
      let H2 := fresh "H" in
      apply lemma_bind in H as [H1|(a & H1 & H2)];
      [chase lemma_bind lemma_subscript lemma_assert H1
      |cbv beta in H2; chase lemma_bind lemma_subscript lemma_assert H2]
  | result (if ?b then _ else _) = Exit _ =>
      destruct b eqn:?; chase lemma_bind lemma_subscript lemma_assert H
  | result (match ?x with _ => _ end) = Exit _ =>
      destruct x eqn:?; chase lemma_bind lemma_subscript lemma_assert H
  | result (subscript _ _) = Exit _ => exfalso; exact (lemma_subscript _ _ _ _ H)
  | result (assert_ _) = Exit _ => exfalso; exact (lemma_assert _ _ H)
  | result (ret _) = Exit _ => discriminate H
  | result (raise _) = Exit _ => discriminate H
  | _ => idtac
  end.

(** * Properties *)

Open Scope string_scope.

(** ** Strings *)

Section PyStrFacts.

Import PyStr.

Lemma split_not_nil (sep : ascii) (s : string) : split sep s <> [].
Proof.
  induction s as [|c s IH]; simpl.
  - discriminate.
  - destruct (Ascii.eqb c sep); [discriminate|].
    destruct (split sep s); [contradiction|discriminate].
Qed.

(** Joining the pieces of a split with the separator gives the string back. *)
Lemma join_split (sep : ascii) (s : string) :
  join (String sep EmptyString) (split sep s) = s.
Proof.
  induction s as [|c s IH]; simpl.
  - reflexivity.
  - destruct (Ascii.eqb c sep) eqn:E.
    + apply Ascii.eqb_eq in E. subst c.
      destruct (split sep s) as [|w ws] eqn:S.
      * exfalso. exact (split_not_nil sep s S).
      * change (join (String sep "") ("" :: w :: ws))
          with (String sep (join (String sep "") (w :: ws))).
        now rewrite IH.
    + destruct (split sep s) as [|w ws] eqn:S.
      * exfalso. exact (split_not_nil sep s S).
      * destruct ws as [|w' ws]; simpl in *; now rewrite <- IH.
Qed.

(** A string without the separator is its own single piece. *)
Lemma split_free (sep : ascii) (s : string) :
  contains sep s = false -> split sep s = [s].
Proof.
  induction s as [|c s IH]; simpl; intros H.
  - reflexivity.
  - apply orb_false_elim in H as [H1 H2].
    rewrite H1, (IH H2). reflexivity.
Qed.

(** The first piece of [family_task] is [family], when [family] has no
    separator of its own. *)
Lemma split_append (sep : ascii) (family rest : string) :
  contains sep family = false ->
  split sep (family ++ String sep rest) = family :: split sep rest.
Proof.
  induction family as [|c f IH]; cbn; intros H.
  - now rewrite Ascii.eqb_refl.
  - apply orb_false_elim in H as [H1 H2].
    rewrite H1, (IH H2). reflexivity.
Qed.

Lemma startswith_append (p r : string) : startswith (p ++ r) p = true.
Proof.
  unfold startswith. induction p as [|c p IH]; simpl.
  - now destruct r.
  - destruct (ascii_dec c c); [exact IH|contradiction].
Qed.

Lemma startswith_inv (s p : string) :
  startswith s p = true -> exists r, s = p ++ r.
Proof.
  unfold startswith. revert s. induction p as [|c p IH]; intros s H.
  - exists s. reflexivity.
  - destruct s as [|c' s]; simpl in H; [discriminate|].
    destruct (ascii_dec c c') as [->|]; [|discriminate].
    destruct (IH s H) as [r ->]. exists r. reflexivity.
Qed.

(** Membership by [==] is membership. *)
Lemma str_in_In (x : string) (t : list string) :
  str_in x t = true <-> In x t.
Proof.
  induction t as [|y t IH]; simpl.
  - split; [discriminate|contradiction].
  - rewrite orb_true_iff, IH, String.eqb_eq. intuition congruence.
Qed.

Lemma str_in_not_In (x : string) (t : list string) :
  str_in x t = false <-> ~ In x t.
Proof.
  rewrite <- str_in_In. destruct (str_in x t); intuition congruence.
Qed.

Lemma substring_all (s : string) : substring 0 (String.length s) s = s.
Proof. induction s as [|c s IH]; cbn; [reflexivity|now rewrite IH]. Qed.

End PyStrFacts.

(** ** The task of a compound name *)

(** [_extract_task] gives back the task a name was built from. *)
Lemma extract_task_append (family task : string) :
  PyStr.contains "_" family = false ->
  _extract_task (family ++ "_" ++ task) = task.
Proof.
  intros H. unfold _extract_task.
  change (family ++ "_" ++ task) with (family ++ String "_" task).
  rewrite (split_append "_" family task H). apply (join_split "_").
Qed.

Example extract_task_clevr : _extract_task "clevr_count_all" = "count_all".
Proof. reflexivity. Qed.

Example extract_task_kitti :
  _extract_task "kitti_closest_vehicle_distance" = "closest_vehicle_distance".
Proof. reflexivity. Qed.

(** ** The tables *)

Lemma classnames_flowers_found :
  subscript classnames "flowers" = ret classnames_flowers.
Proof. reflexivity. Qed.

Lemma kitti_classnames_found :
  subscript classnames "kitti_closest_vehicle_distance"
  = ret classnames_kitti_closest_vehicle_distance.
Proof. reflexivity. Qed.

Lemma default_templates :
  DEFAULT_ZEROSHOT_CLASSIFICATION_TEMPLATES = templates_imagenet1k.
Proof. reflexivity. Qed.

(** No key is written twice in either dict literal. *)
Lemma tables_keys_distinct :
  NoDup (map fst zeroshot_classification_templates) /\ NoDup (map fst classnames).
Proof.
  split; repeat (constructor; [cbn; intuition discriminate|]); constructor.
Qed.

(** ** Manual-download gating *)

Section ManualDownload.

Variable w : world.
Variables (root : string) (transform : pyval) (split : string) (download : bool).
Variable kw : kwargs.

(** C1. Manual-download gating is per identifier.  With an annotation
    path at which there is no file, [build_dataset] for flickr30k and for
    flickr8k prints the message with the download URL and ends the process
    with exit status 1, and its trace holds no backend call; for
    mscoco_captions it prints its message and goes on to call the
    CocoCaptions backend, and ends the way that backend ends. *)
Theorem manual_download_gate_is_per_identifier (path : string) :
  path_exists w path = false ->
  (build_dataset w "flickr30k" root transform split download (Some path) kw
     = ([EPrint flickr30k_message], Exit 1%Z)
   /\ flickr30k_message
      = manual_download_notice "https://www.kaggle.com/datasets/adityajn105/flickr30k")
  /\ (build_dataset w "flickr8k" root transform split download (Some path) kw
        = ([EPrint flickr8k_message], Exit 1%Z)
      /\ flickr8k_message
         = manual_download_notice "https://www.kaggle.com/datasets/adityajn105/flickr8k")
  /\ (build_dataset w "mscoco_captions" root transform split download (Some path) kw
        = ([EPrint coco_message;
            ECall "CocoCaptions" []
              ([("root", PStr root); ("annFile", PStr path); ("transform", transform)]
                 ++ kw)%list],
           construct w "CocoCaptions" []
              ([("root", PStr root); ("annFile", PStr path); ("transform", transform)]
                 ++ kw)%list)
      /\ coco_message = manual_download_notice "https://cocodataset.org/").
Proof.
  intros H. unfold build_dataset. cbn. rewrite H. cbn. repeat split.
Qed.

(** C10. With [annotation_file] left at [None], [build_dataset] for each
    of the three caption corpora raises a [TypeError] at the existence
    check: nothing has been printed, no backend has been called, and the
    process has not been ended. *)
Theorem missing_annotation_file_type_error (name : string) :
  In name caption_identifiers ->
  exists msg,
    build_dataset w name root transform split download None kw
    = ([], Raise (TypeError msg)).
Proof.
  intros H. in_cases H; eexists; reflexivity.
Qed.

(** C6. An identifier that is none of the enumerated ones and starts with
    neither [tfds/] nor [vtab/] makes [build_dataset] raise the
    unsupported-dataset [ValueError] at once: the trace is empty, so no
    backend was called. *)
Theorem unsupported_identifier (name : string) (annotation_file : option string) :
  ~ In name known_identifiers ->
  PyStr.startswith name "tfds/" = false ->
  PyStr.startswith name "vtab/" = false ->
  build_dataset w name root transform split download annotation_file kw
  = ([], Raise (ValueError ("Unsupported dataset: " ++ name ++ "."))).
Proof.
  intros H Ht Hv. apply str_in_not_In in H.
  unfold known_identifiers, PyStr.str_in in H.
  repeat (apply orb_false_elim in H as [?E H]).
  unfold build_dataset.
  repeat match goal with E : (name =? _) = false |- _ => rewrite E; clear E end.
  rewrite Ht, Hv. reflexivity.
Qed.

End ManualDownload.

(** The gate on a disk without files: flickr30k stops the process. *)
Lemma manual_download_gate_witness :
  build_dataset Fixture.empty_disk "flickr30k" "root" PNone "test" true
                (Some "captions.txt") []
  = ([EPrint flickr30k_message], Exit 1%Z).
Proof.
  exact (proj1 (proj1 (manual_download_gate_is_per_identifier
                         Fixture.empty_disk "root" PNone "test" true []
                         "captions.txt" eq_refl))).
Defined.

(** flickr8k with the default annotation file. *)
Lemma missing_annotation_file_witness :
  exists msg,
    build_dataset Fixture.empty_disk "flickr8k" "root" PNone "test" true None []
    = ([], Raise (TypeError msg)).
Proof.
  apply missing_annotation_file_type_error. right; right; left; reflexivity.
Defined.

(** An identifier the chain does not know. *)
Lemma unsupported_identifier_witness :
  build_dataset Fixture.empty_disk "imagenet21k" "root" PNone "test" true None []
  = ([], Raise (ValueError "Unsupported dataset: imagenet21k.")).
Proof.
  apply (unsupported_identifier Fixture.empty_disk "root" PNone "test" true []
                                "imagenet21k" None);
    [apply str_in_not_In; reflexivity | reflexivity | reflexivity].
Defined.

(** ** The flowers probe *)

Section Flowers.

Variable w : world.
Variables (root : string) (transform : pyval) (split : string) (download : bool).
Variable annotation_file : option string.
Variable kw : kwargs.

(** C2. Resolving flowers probes the first sample of the handle the
    Flowers102 backend built (one that carries no [target_transform] of
    the caller's).  When that sample's label is 1, the returned handle has
    a [target_transform] that takes 1 from every label, so the sample now
    reads 0; when it is 0, the returned handle has no [target_transform]
    and every label reads as stored.  Either way [classes] is the curated
    flowers vocabulary. *)
Theorem flowers_label_probe (ds : dataset) (img : pyval) (l0 : Z)
        (rest : list (pyval * Z)) :
  construct w "Flowers102" []
    ([("root", PStr root); ("split", train_or (split =? "train") "test");
      ("transform", transform); ("download", PBool download)] ++ kw)%list = Ret ds ->
  samples ds = (img, l0) :: rest ->
  target_transform ds = None ->
  exists ds',
    result (build_dataset w "flowers" root transform split download annotation_file kw)
      = Ret ds'
    /\ classes ds' = Some classnames_flowers
    /\ samples ds' = samples ds
    /\ (l0 = 1%Z ->
        (exists f, target_transform ds' = Some f /\ forall y, f y = (y - 1)%Z)
        /\ getitem ds' 0 = ret (img, 0%Z)
        /\ forall i x y, nth_error (samples ds) i = Some (x, y) ->
                         getitem ds' i = ret (x, (y - 1)%Z))
    /\ (l0 = 0%Z ->
        target_transform ds' = None
        /\ forall i x y, nth_error (samples ds) i = Some (x, y) ->
                         getitem ds' i = ret (x, y)).
Proof.
  intros Hc Hs Ht.
  assert (G : getitem ds 0 = ret (img, l0)).
  { unfold getitem, index. rewrite Hs, Ht. reflexivity. }
  unfold build_dataset.
  cbn -[subscript classnames_flowers getitem Z.eqb Z.sub].
  unfold backend, call, bind at 1.
  cbn in Hc. rewrite Hc, G, classnames_flowers_found.
  cbn -[classnames_flowers getitem Z.eqb Z.sub].
  eexists. split; [reflexivity|]. split; [reflexivity|].
  split; [now destruct (l0 =? 1)%Z|].
  split; intros ->; cbn -[classnames_flowers Z.sub].
  - split; [eexists; split; reflexivity|].
    split.
    + unfold getitem, index. cbn -[classnames_flowers]. rewrite Hs. reflexivity.
    + intros i x y Hi. unfold getitem, index. cbn -[classnames_flowers Z.sub].
      rewrite Hi. reflexivity.
  - split; [exact Ht|].
    intros i x y Hi. unfold getitem, index. cbn -[classnames_flowers].
    rewrite Hi, Ht. reflexivity.
Qed.

End Flowers.

(** The probe on the two fixtures: labels that start at 1 are shifted,
    labels that start at 0 are left alone. *)
Lemma flowers_label_probe_witness :
  (exists ds',
     result (build_dataset Fixture.empty_disk "flowers" "root" PNone "test" true None [])
     = Ret ds'
     /\ getitem ds' 0 = ret (PObj 0, 0%Z)
     /\ getitem ds' 1 = ret (PObj 1, 4%Z))
  /\ (exists ds',
        result (build_dataset Fixture.newer_torchvision "flowers" "root" PNone "test" true
                              None [])
        = Ret ds'
        /\ target_transform ds' = None
        /\ getitem ds' 1 = ret (PObj 1, 4%Z)).
Proof.
  split.
  - destruct (flowers_label_probe Fixture.empty_disk "root" PNone "test" true None []
                Fixture.one_based (PObj 0) 1%Z [(PObj 1, 5%Z)] eq_refl eq_refl eq_refl)
      as (ds' & Hr & _ & _ & Hone & _).
    exists ds'. destruct (Hone eq_refl) as (_ & H0 & Hall).
    split; [exact Hr|]. split; [exact H0|]. exact (Hall 1 (PObj 1) 5%Z eq_refl).
  - destruct (flowers_label_probe Fixture.newer_torchvision "root" PNone "test" true None []
                Fixture.zero_based (PObj 0) 0%Z [(PObj 1, 4%Z)] eq_refl eq_refl eq_refl)
      as (ds' & Hr & _ & _ & _ & Hzero).
    exists ds'. destruct (Hzero eq_refl) as (Hnone & Hall).
    split; [exact Hr|]. split; [exact Hnone|]. exact (Hall 1 (PObj 1) 4%Z eq_refl).
Defined.

(** ** The kitti family of the vtab path *)

Section Kitti.

Variable w : world.
Variables (transform : pyval) (download : bool) (split data_dir : string).

(** A kitti name goes past every earlier branch of the chain and into the
    kitti branch, with the task it was built from. *)
Lemma vtab_kitti_branch (task : string) :
  disable_gpus_on_tensorflow w = Ret tt ->
  build_vtab_dataset w ("kitti_" ++ task) transform download split data_dir
  = (call "disable_gpus_on_tensorflow" [] [] (Ret tt) ;;;
     sel <- (assert_ (PyStr.str_in task kitti_tasks) ;;;
             tfds_dataset <- data_class w "kitti.KittiData" []
                               [("task", PStr task); ("data_dir", PStr data_dir)] ;;
             if task =? "closest_vehicle_distance" then
               cs <- subscript classnames "kitti_closest_vehicle_distance" ;;
               ret (tfds_dataset, Some cs)
             else raise (ValueError ("Unsupported task: " ++ task))) ;;
     backend w "VTABIterableDataset" [PObj (adapter_obj (fst sel))]
             (vtab_iterable_args transform split (snd sel))).
Proof.
  intros Hd. unfold build_vtab_dataset, vtab_select. rewrite Hd.
  assert (E : _extract_task ("kitti_" ++ task) = task)
    by exact (extract_task_append "kitti" task eq_refl).
  rewrite E, (startswith_append "kitti_" task).
  name_tests ("kitti_" ++ task).
  reflexivity.
Qed.

(** C3, as the code has it.  Once the tensorflow set-up has returned,
    [build_vtab_dataset] for the name kitti_TASK
    - fails with the assertion, before any data object is built, when TASK
      is outside the eight asserted tasks;
    - builds the KittiData object and goes on to construct the handle (the
      VTABIterableDataset call, with the curated class names) when TASK is
      closest_vehicle_distance;
    - builds the KittiData object and then raises the unsupported-task
      [ValueError], constructing no handle, for each of the seven other
      asserted tasks. *)
Theorem kitti_task_resolution (task : string) :
  disable_gpus_on_tensorflow w = Ret tt ->
  (~ In task kitti_tasks ->
     build_vtab_dataset w ("kitti_" ++ task) transform download split data_dir
     = ([disable_call], Raise AssertionError))
  /\ (forall a,
        adapter w "kitti.KittiData" [] [("task", PStr task); ("data_dir", PStr data_dir)]
          = Ret a ->
        (task = "closest_vehicle_distance" ->
           build_vtab_dataset w ("kitti_" ++ task) transform download split data_dir
           = ([disable_call; kitti_call task data_dir;
               ECall "VTABIterableDataset" [PObj (adapter_obj a)]
                 (vtab_iterable_args transform split
                    (Some classnames_kitti_closest_vehicle_distance))],
              construct w "VTABIterableDataset" [PObj (adapter_obj a)]
                 (vtab_iterable_args transform split
                    (Some classnames_kitti_closest_vehicle_distance))))
        /\ (In task kitti_tasks -> task <> "closest_vehicle_distance" ->
           build_vtab_dataset w ("kitti_" ++ task) transform download split data_dir
           = ([disable_call; kitti_call task data_dir],
              Raise (ValueError ("Unsupported task: " ++ task))))).
Proof.
  intros Hd. rewrite (vtab_kitti_branch task Hd). split.
  - intros Hn. apply str_in_not_In in Hn. rewrite Hn. reflexivity.
  - intros a Ha. split.
    + intros ->. unfold data_class.
      cbn -[subscript classnames_kitti_closest_vehicle_distance].
      cbn in Ha. rewrite Ha, kitti_classnames_found. reflexivity.
    + intros Hi Hne. apply str_in_In in Hi. rewrite Hi.
      apply String.eqb_neq in Hne. rewrite Hne.
      unfold data_class, call, assert_, bind, ret, raise. rewrite Ha. reflexivity.
Qed.

End Kitti.

(** C3, as the claim has it, fails: count_all is one of the asserted tasks,
    and in a world where every collaborator answers the run for
    kitti_count_all ends in a [ValueError] after the KittiData call, with no
    VTABIterableDataset call in its trace. *)
Lemma kitti_count_all_unsupported :
  In "count_all" kitti_tasks
  /\ build_vtab_dataset Fixture.empty_disk "kitti_count_all" PNone true "test" "root"
     = ([disable_call; kitti_call "count_all" "root"],
        Raise (ValueError "Unsupported task: count_all")).
Proof. split; [left; reflexivity|reflexivity]. Qed.

(** A task outside the asserted set. *)
Lemma kitti_task_resolution_witness :
  build_vtab_dataset Fixture.empty_disk "kitti_count_trucks" PNone true "test" "root"
  = ([disable_call], Raise AssertionError).
Proof.
  apply (proj1 (kitti_task_resolution Fixture.empty_disk PNone true "test" "root"
                                      "count_trucks" eq_refl)).
  apply str_in_not_In. reflexivity.
Defined.

(** ** Extra keyword options *)

Section Options.

Variable w : world.
Variables (root : string) (transform : pyval) (split : string) (download : bool).
Variable annotation_file : option string.




(** The fer2013 branch builds its folder backend from the redirected root
    and the transform alone. *)
Lemma fer2013_backend_call (kw : kwargs) :
  build_dataset w "fer2013" root transform split download annotation_file kw
  = build_dataset w "fer2013" root transform split download annotation_file [].
Proof. reflexivity. Qed.

End Options.

(** The supported kitti task, in a world where every collaborator answers:
    the handle is constructed with the curated class names. *)
Example kitti_closest_vehicle_distance_resolves :
  trace (build_vtab_dataset Fixture.empty_disk "kitti_closest_vehicle_distance"
                            PNone true "test" "root")
  = [disable_call; kitti_call "closest_vehicle_distance" "root";
     ECall "VTABIterableDataset" [PObj 7]
       (vtab_iterable_args PNone "test"
          (Some classnames_kitti_closest_vehicle_distance))].
Proof. reflexivity. Qed.


(** An extra option named train, for cifar10: the call of the branch gives
    the keyword train twice, so it does not enter CIFAR10. *)
Example cifar10_train_option_refused :
  trace (build_dataset Fixture.empty_disk "cifar10" "root" PNone "test" true None
                       [("train", PBool true)])
  = [ECall "CIFAR10" []
       [("root", PStr "root"); ("train", PBool false); ("transform", PNone);
        ("download", PBool true); ("train", PBool true)]]
  /\ ~ binds_keywords
        (ECall "CIFAR10" []
           [("root", PStr "root"); ("train", PBool false); ("transform", PNone);
            ("download", PBool true); ("train", PBool true)]).
Proof.
  split; [reflexivity|]. cbn. intros H.
  inversion H as [|? ? _ H1]; subst. inversion H1 as [|? ? N _]; subst.
  apply N. cbn. tauto.
Qed.


(** ** Prompt templates *)

Lemma strip_namespace_tfds (r : string) : strip_namespace ("tfds/" ++ r) = r.
Proof.
  unfold strip_namespace, namespaced. rewrite (startswith_append "tfds/" r).
  cbn -[substring]. rewrite Nat.sub_0_r. cbn. apply substring_all.
Qed.

Lemma strip_namespace_vtab (r : string) : strip_namespace ("vtab/" ++ r) = r.
Proof.
  unfold strip_namespace, namespaced. rewrite (startswith_append "vtab/" r).
  rewrite orb_true_r.
  cbn -[substring]. rewrite Nat.sub_0_r. cbn. apply substring_all.
Qed.

Lemma namespaced_inv (s : string) :
  namespaced s = true -> exists r, s = "tfds/" ++ r \/ s = "vtab/" ++ r.
Proof.
  unfold namespaced. intros H. apply orb_true_iff in H as [H|H];
    apply startswith_inv in H as [r ->]; exists r; auto.
Qed.

(** The second piece of a namespaced identifier is the first segment of what
    follows the namespace. *)
Lemma second_piece (s : string) :
  namespaced s = true ->
  index (PyStr.split "/" s) 1 = ret (first_segment (strip_namespace s)).
Proof.
  intros N. destruct (namespaced_inv s N) as [r [-> | ->]].
  - rewrite strip_namespace_tfds. unfold first_segment. cbn.
    destruct (PyStr.split "/" r) as [|x xs] eqn:S; [now apply split_not_nil in S|].
    reflexivity.
  - rewrite strip_namespace_vtab. unfold first_segment. cbn.
    destruct (PyStr.split "/" r) as [|x xs] eqn:S; [now apply split_not_nil in S|].
    reflexivity.
Qed.

(** The lookup never fails and causes no event: it returns the template set
    of the name it looks up, or the default set. *)
Lemma templates_total (s : string) :
  get_zeroshot_classification_templates s
  = ret (templates_of (if namespaced s then first_segment (strip_namespace s) else s)).
Proof.
  unfold get_zeroshot_classification_templates. fold (namespaced s).
  rewrite default_templates. fold templates_of.
  destruct (namespaced s) eqn:N; [|reflexivity].
  rewrite (second_piece s N). reflexivity.
Qed.

(** C5, as the code has it.  [get_zeroshot_classification_templates] never
    fails and has no effect.  For an identifier under [tfds/] or [vtab/] it
    looks up the piece between the namespace and the next slash, for any
    other identifier the identifier itself, and returns the matching
    template set or the default (imagenet1k) set.  Whenever nothing but the
    namespace holds a slash this is the lookup of the stripped name; so
    unknown_name gives what imagenet1k gives, and vtab/eurosat what eurosat
    gives. *)
Theorem templates_lookup :
  (forall s,
     get_zeroshot_classification_templates s
     = ret (templates_of (if namespaced s then first_segment (strip_namespace s) else s)))
  /\ (forall s,
        PyStr.contains "/" (strip_namespace s) = false ->
        get_zeroshot_classification_templates s = ret (get_templates_spec s))
  /\ get_zeroshot_classification_templates "unknown_name"
     = get_zeroshot_classification_templates "imagenet1k"
  /\ get_zeroshot_classification_templates "vtab/eurosat"
     = get_zeroshot_classification_templates "eurosat".
Proof.
  split; [exact templates_total|]. split; [|split; reflexivity].
  intros s H. rewrite templates_total. unfold get_templates_spec.
  destruct (namespaced s) eqn:N.
  - unfold first_segment. rewrite (split_free _ _ H). reflexivity.
  - unfold strip_namespace. rewrite N. reflexivity.
Qed.

(** C5, as the claim has it, fails on an identifier with a second slash:
    the stripped name of vtab/eurosat/x is eurosat/x, which has no template
    set of its own, so the claim gives the default set; the code gives the
    eurosat set. *)
Lemma templates_second_slash :
  get_zeroshot_classification_templates "vtab/eurosat/x" = ret templates_eurosat
  /\ strip_namespace "vtab/eurosat/x" = "eurosat/x"
  /\ get_templates_spec "vtab/eurosat/x" = templates_imagenet1k
  /\ get_zeroshot_classification_templates "vtab/eurosat/x"
     <> ret (get_templates_spec "vtab/eurosat/x").
Proof.
  repeat split; try reflexivity. intros H.
  apply (f_equal (fun m => match result m with
                           | Ret l => List.length l
                           | _ => 0
                           end)) in H.
  vm_compute in H. discriminate.
Qed.

(** A namespaced identifier with a single slash. *)
Lemma templates_lookup_witness :
  get_zeroshot_classification_templates "tfds/mnist" = ret (get_templates_spec "tfds/mnist").
Proof.
  apply (proj1 (proj2 templates_lookup)). reflexivity.
Defined.

(** ** Collation *)

Section Collate.

Variable w : world.

Lemma heads_tails_singletons (l : list pyval) :
  heads_tails (map (fun x => [x]) l) = Some (l, map (fun _ => []) l).
Proof. induction l as [|x l IH]; cbn; [reflexivity|now rewrite IH]. Qed.

Lemma heads_tails_samples (batch : list (pyval * list string)) :
  heads_tails (map sample_of batch)
  = Some (map fst batch, map (fun x => [x]) (captions_of batch)).
Proof. induction batch as [|p ps IH]; cbn; [reflexivity|now rewrite IH]. Qed.

(** Transposing a batch of pairs gives the column of the images and the
    column of the caption lists, each in batch order. *)
Lemma zip_star_samples (p : pyval * list string) (ps : list (pyval * list string)) :
  zip_star (map sample_of (p :: ps)) = [map fst (p :: ps); captions_of (p :: ps)].
Proof.
  cbn. rewrite heads_tails_samples, heads_tails_singletons. reflexivity.
Qed.

Lemma collate_samples (p : pyval * list string) (ps : list (pyval * list string)) :
  image_captions_collate_fn w (map sample_of (p :: ps))
  = (imgs <- lift (default_collate w (map fst (p :: ps))) ;;
     ret (imgs, captions_of (p :: ps))).
Proof.
  unfold image_captions_collate_fn. rewrite zip_star_samples.
  cbn -[map captions_of]. unfold lift, bind.
  destruct (default_collate w (map fst (p :: ps))); reflexivity.
Qed.

(** C7. [get_dataset_collate_fn] returns the caption-aware collator for
    mscoco_captions, flickr30k and flickr8k, and for no other identifier;
    for every other identifier it returns the default collator.  On a
    batch of (image, caption list) pairs the caption-aware collator hands
    the images, in batch order, to the default collator and returns its
    result together with the caption lists, in batch order; so the batch
    of (img1, [a, b]) and (img2, [c]) gives the stacked images with
    [[a, b], [c]]. *)
Theorem collate_selection_and_shape :
  (forall name,
     get_dataset_collate_fn name = image_captions_collate <-> In name caption_identifiers)
  /\ (forall name,
        ~ In name caption_identifiers -> get_dataset_collate_fn name = default_collate_)
  /\ (forall p ps,
        image_captions_collate_fn w (map sample_of (p :: ps))
        = (imgs <- lift (default_collate w (map fst (p :: ps))) ;;
           ret (imgs, captions_of (p :: ps))))
  /\ (forall img1 img2 stacked_images,
        default_collate w [img1; img2] = Ret stacked_images ->
        image_captions_collate_fn w [[img1; PStrList ["a"; "b"]]; [img2; PStrList ["c"]]]
        = ret (stacked_images, [PStrList ["a"; "b"]; PStrList ["c"]])).
Proof.
  split; [|split; [|split]].
  - intros name. unfold get_dataset_collate_fn. fold caption_identifiers.
    rewrite <- str_in_In.
    destruct (PyStr.str_in name caption_identifiers); intuition discriminate.
  - intros name H. apply str_in_not_In in H. unfold get_dataset_collate_fn.
    fold caption_identifiers. now rewrite H.
  - exact collate_samples.
  - intros img1 img2 st H.
    change [[img1; PStrList ["a"; "b"]]; [img2; PStrList ["c"]]]
      with (map sample_of [(img1, ["a"; "b"]); (img2, ["c"])]).
    rewrite collate_samples. cbn. rewrite H. reflexivity.
Qed.

(** C8, as the code has it.  [get_dataset_collate_fn] answers for every
    identifier, with one of the two collators.  The caption-aware collator
    returns on every batch of pairs that is not empty, whenever the
    default collator stacks its images; on the empty batch it raises
    [IndexError]. *)
Theorem collate_failure_modes :
  (forall name,
     get_dataset_collate_fn name = image_captions_collate
     \/ get_dataset_collate_fn name = default_collate_)
  /\ (forall p ps stacked,
        default_collate w (map fst (p :: ps)) = Ret stacked ->
        image_captions_collate_fn w (map sample_of (p :: ps))
        = ret (stacked, captions_of (p :: ps)))
  /\ image_captions_collate_fn w [] = ([], Raise IndexError).
Proof.
  split; [|split].
  - intros name. unfold get_dataset_collate_fn.
    destruct (PyStr.str_in name _); auto.
  - intros p ps st H. rewrite collate_samples, H. reflexivity.
  - reflexivity.
Qed.

End Collate.

(** C8, as the claim has it, fails on the empty batch: the transposed batch
    is empty, and taking its first column raises [IndexError]. *)
Lemma collate_empty_batch_fails :
  get_dataset_collate_fn "flickr8k" = image_captions_collate
  /\ map sample_of [] = []
  /\ image_captions_collate_fn Fixture.empty_disk [] = ([], Raise IndexError).
Proof. repeat split. Qed.

(** The batch of the two pairs, with a default collator that answers. *)
Lemma collate_selection_witness :
  image_captions_collate_fn Fixture.empty_disk
    [[PObj 1; PStrList ["a"; "b"]]; [PObj 2; PStrList ["c"]]]
  = ret (PObj 2, [PStrList ["a"; "b"]; PStrList ["c"]]).
Proof.
  apply (proj2 (proj2 (proj2 (collate_selection_and_shape Fixture.empty_disk)))).
  reflexivity.
Defined.

(** A batch of one pair. *)
Lemma collate_failure_modes_witness :
  image_captions_collate_fn Fixture.empty_disk (map sample_of [(PObj 1, ["a"; "b"])])
  = ret (PObj 1, captions_of [(PObj 1, ["a"; "b"])]).
Proof.
  apply (proj1 (proj2 (collate_failure_modes Fixture.empty_disk))).
  reflexivity.
Defined.

(** ** Curated class names *)

Section Classes.

Variable w : world.
Variables (root : string) (transform : pyval) (split : string) (download : bool).
Variable annotation_file : option string.
Variable kw : kwargs.

Lemma override_classes (m : Eff dataset) (key : string) (cs : list string)
      (ds : dataset) :
  dict_find classnames key = Some cs ->
  result (d <- m ;; c <- subscript classnames key ;; ret (set_classes d c)) = Ret ds ->
  classes ds = Some cs.
Proof.
  intros H. unfold subscript. rewrite H.
  destruct m as [t [d| |]]; cbn; try discriminate.
  intros [= <-]. reflexivity.
Qed.

Lemma override_returns (m : Eff dataset) (key : string) (cs : list string) :
  dict_find classnames key = Some cs ->
  (exists d, result m = Ret d) ->
  exists ds,
    result (d <- m ;; c <- subscript classnames key ;; ret (set_classes d c)) = Ret ds.
Proof.
  intros H [d Hd]. unfold subscript. rewrite H. destruct m as [t o].
  cbn in Hd. subst o. eexists. reflexivity.
Qed.

(** C9. For every identifier whose [classes] come from the curated
    vocabulary (imagenet1k, caltech101, flowers, mnist, eurosat, gtsrb,
    country211, pcam, fer2013), a handle [build_dataset] returns carries
    the vocabulary of that identifier, and its length is the class count
    listed for it: 1000 for imagenet1k and 10 for eurosat among them.  And
    [build_dataset] does return a handle for each of them in a world whose
    backends answer with a handle that holds a sample. *)
Theorem curated_classes_length :
  (forall name n ds,
     In (name, n) curated_class_counts ->
     result (build_dataset w name root transform split download annotation_file kw)
       = Ret ds ->
     exists cs, classes ds = Some cs
                /\ dict_find classnames name = Some cs
                /\ List.length cs = n)
  /\ (forall name n,
        In (name, n) curated_class_counts ->
        (forall callee pos kw', exists h,
            construct w callee pos kw' = Ret h /\ samples h <> []) ->
        exists ds,
          result (build_dataset w name root transform split download annotation_file kw)
          = Ret ds)
  /\ In ("imagenet1k", 1000) curated_class_counts
  /\ In ("eurosat", 10) curated_class_counts.
Proof.
  split; [|split; [|split; cbn; tauto]].
  - intros name n ds Hn.
    in_cases Hn; injection Hn as <- <-; unfold build_dataset;
      cbn -[subscript classnames getitem bind]; intros Hr;
      eexists; (split; [|split; reflexivity]);
      try (eapply override_classes; [|exact Hr]; reflexivity).
    + revert Hr. unfold backend, call, bind at 1.
      destruct (construct w _ _ _) as [d| |]; try discriminate.
      destruct (getitem d 0) as [t [x| |]]; try discriminate.
      cbn. intros [= <-]. reflexivity.
    + revert Hr. unfold bind at 1 2. cbn. destruct (negb _); cbn;
        unfold backend, call, bind;
        destruct (construct w _ _ _) as [d| |]; try discriminate;
        cbn; intros [= <-]; reflexivity.
  - intros name n Hn Hw.
    in_cases Hn; injection Hn as <- <-; unfold build_dataset;
      cbn -[subscript classnames getitem bind];
      try (eapply override_returns; [reflexivity|];
           unfold backend, call; cbn; answer w Hw h Hs; eexists; reflexivity).
    + unfold backend, call. answer w Hw h Hs.
      unfold bind at 1. unfold getitem, index.
      destruct (samples h) as [|[x y] l] eqn:S; [contradiction|].
      cbn. eexists. reflexivity.
    + unfold backend, call, os_path_exists. answer w Hw h Hs.
      match goal with
      | |- context [path_exists w ?p] => destruct (path_exists w p)
      end; cbn; eexists; reflexivity.
Qed.

End Classes.

(** imagenet1k in a world whose backends answer: a handle with 1000 names. *)
Lemma curated_classes_witness :
  exists ds cs,
    result (build_dataset Fixture.empty_disk "imagenet1k" "root" PNone "test" true None [])
    = Ret ds
    /\ classes ds = Some cs
    /\ List.length cs = 1000.
Proof.
  pose proof (curated_classes_length Fixture.empty_disk "root" PNone "test" true None [])
    as (Hlen & Hret & Hin & _).
  destruct (Hret "imagenet1k" 1000 Hin) as [ds Hds].
  { intros callee pos kw'. exists Fixture.one_based. split; [reflexivity|discriminate]. }
  destruct (Hlen "imagenet1k" 1000 ds Hin Hds) as (cs & Hc & _ & Hn).
  exists ds, cs. auto.
Defined.

(** * Further properties *)

(** ** Names and their pieces *)

Lemma contains_append (c : ascii) (a b : string) :
  PyStr.contains c (a ++ b) = PyStr.contains c a || PyStr.contains c b.
Proof.
  induction a as [|x a IH]; cbn; [reflexivity|].
  rewrite IH. apply orb_assoc.
Qed.

(** A string that holds the separator is its first piece, the separator,
    and the join of the other pieces. *)
Lemma split_first_piece (sep : ascii) (s : string) :
  PyStr.contains sep s = true ->
  exists family rest,
    PyStr.split sep s = family :: PyStr.split sep rest
    /\ PyStr.contains sep family = false
    /\ s = family ++ String sep rest.
Proof.
  induction s as [|c s IH]; cbn; intros H; [discriminate|].
  destruct (Ascii.eqb c sep) eqn:E.
  - apply Ascii.eqb_eq in E. subst c. exists EmptyString, s. auto.
  - cbn in H. destruct (IH H) as (f & r & Hs & Hf & ->).
    exists (String c f), r. rewrite Hs. cbn. rewrite E, Hf. auto.
Qed.

(** X1. [_extract_task] undoes the composition of a name: the task of
    FAMILY_TASK is TASK, underscores of the task included, when the family
    holds no underscore; every name that holds an underscore is its family,
    an underscore and its task; and a name without underscore has the empty
    task. *)
Theorem extract_task_decomposition :
  (forall family task,
     PyStr.contains "_" family = false ->
     _extract_task (family ++ "_" ++ task) = task)
  /\ (forall name,
        PyStr.contains "_" name = true ->
        exists family,
          PyStr.contains "_" family = false
          /\ name = family ++ "_" ++ _extract_task name)
  /\ (forall name,
        PyStr.contains "_" name = false -> _extract_task name = EmptyString).
Proof.
  split; [|split].
  - intros family task H. unfold _extract_task.
    change (family ++ "_" ++ task) with (family ++ String "_" task).
    rewrite (split_append "_" family task H). apply (join_split "_").
  - intros name H.
    destruct (split_first_piece "_" name H) as (f & r & Hs & Hf & ->).
    exists f. split; [exact Hf|].
    unfold _extract_task. rewrite Hs, (join_split "_"). reflexivity.
  - intros name H. unfold _extract_task. rewrite (split_free _ _ H). reflexivity.
Qed.

(** A name with its family and task, taken apart and put together. *)
Lemma extract_task_decomposition_witness :
  _extract_task ("dsprites" ++ "_" ++ "label_x_position") = "label_x_position".
Proof.
  apply (proj1 extract_task_decomposition). reflexivity.
Defined.

(** ** Class names with underscores *)

(** Joining the pieces between the underscores with spaces is replacing
    every underscore by a space. *)
Lemma underscores_to_spaces_replace (s : string) :
  underscores_to_spaces s = replace_char "_" " " s.
Proof.
  unfold underscores_to_spaces. induction s as [|c s IH]; cbn; [reflexivity|].
  destruct (Ascii.eqb c "_") eqn:E.
  - destruct (PyStr.split "_" s) as [|w ws] eqn:S; [now apply split_not_nil in S|].
    change (PyStr.join " " ("" :: w :: ws)) with (String " " (PyStr.join " " (w :: ws))).
    now rewrite IH.
  - destruct (PyStr.split "_" s) as [|w ws] eqn:S; [now apply split_not_nil in S|].
    destruct ws as [|w' ws]; cbn in *; now rewrite <- IH.
Qed.

Lemma replace_char_length (a b : ascii) (s : string) :
  String.length (replace_char a b s) = String.length s.
Proof. induction s as [|c s IH]; cbn; [reflexivity|now rewrite IH]. Qed.

Lemma replace_char_free (a b : ascii) (s : string) :
  a <> b -> PyStr.contains a (replace_char a b s) = false.
Proof.
  intros N. induction s as [|c s IH]; cbn; [reflexivity|].
  rewrite IH, orb_false_r. destruct (Ascii.eqb c a) eqn:E; [|exact E].
  apply Ascii.eqb_neq. congruence.
Qed.

Lemma replace_char_absent (a b : ascii) (s : string) :
  PyStr.contains a s = false -> replace_char a b s = s.
Proof.
  induction s as [|c s IH]; cbn; intros H; [reflexivity|].
  apply orb_false_elim in H as [H1 H2]. now rewrite H1, (IH H2).
Qed.

Section Respace.

Variable w : world.
Variables (root : string) (transform : pyval) (split : string) (download : bool).
Variable annotation_file : option string.
Variable kw : kwargs.

(** X2. For food101 and for sun397, when the backend answers with a handle
    that has class names, [build_dataset] returns that handle with every
    underscore of every class name replaced by a space: as many names as
    before, each as long as before, none with an underscore left, and a name
    without underscore unchanged. *)
Theorem underscored_class_names :
  (forall h native,
     construct w "Food101" []
       ([("root", PStr root); ("split", train_or (split =? "train") "test");
         ("transform", transform); ("download", PBool download)] ++ kw)%list = Ret h ->
     classes h = Some native ->
     result (build_dataset w "food101" root transform split download annotation_file kw)
     = Ret (set_classes h (map (replace_char "_" " ") native)))
  /\ (forall h native,
        construct w "SUN397" []
          ([("root", PStr root); ("transform", transform);
            ("download", PBool download)] ++ kw)%list = Ret h ->
        classes h = Some native ->
        result (build_dataset w "sun397" root transform split download annotation_file kw)
        = Ret (set_classes h (map (replace_char "_" " ") native)))
  /\ (forall native,
        List.length (map (replace_char "_" " ") native) = List.length native
        /\ Forall2 (fun old new => String.length new = String.length old
                                   /\ PyStr.contains "_" new = false
                                   /\ (PyStr.contains "_" old = false -> new = old))
                   native (map (replace_char "_" " ") native)).
Proof.
  split; [|split].
  - intros h native Hw Hc. unfold build_dataset. cbn -[respace_classes].
    unfold backend, call, bind. cbn in Hw. rewrite Hw.
    unfold respace_classes. rewrite Hc. cbn.
    rewrite (map_ext _ _ underscores_to_spaces_replace). reflexivity.
  - intros h native Hw Hc. unfold build_dataset. cbn -[respace_classes].
    unfold backend, call, bind. cbn in Hw. rewrite Hw.
    unfold respace_classes. rewrite Hc. cbn.
    rewrite (map_ext _ _ underscores_to_spaces_replace). reflexivity.
  - intros native. split; [apply length_map|].
    induction native as [|s l IH]; cbn; constructor; [|exact IH].
    split; [apply replace_char_length|].
    split; [apply replace_char_free; discriminate|apply replace_char_absent].
Qed.

End Respace.

(** Food101 names on the fixture: apple_pie becomes apple pie. *)
Lemma underscored_class_names_witness :
  result (build_dataset Fixture2.full_disk "food101" "root" PNone "test" true None [])
  = Ret (set_classes Fixture2.underscored ["apple pie"; "baby back ribs"; "sushi"]).
Proof.
  apply (proj1 (underscored_class_names Fixture2.full_disk "root" PNone "test" true
                  None []) Fixture2.underscored ["apple_pie"; "baby_back_ribs"; "sushi"]);
    reflexivity.
Defined.

(** ** Namespaced identifiers *)

Section Namespaces.

Variable w : world.
Variables (root : string) (transform : pyval) (split : string) (download : bool).
Variable annotation_file : option string.
Variable kw : kwargs.

Lemma tfds_branch (rest : string) :
  build_dataset w ("tfds/" ++ rest) root transform split download annotation_file kw
  = build_tfds_dataset w rest transform download split root None.
Proof.
  unfold build_dataset. name_tests ("tfds/" ++ rest).
  rewrite (startswith_append "tfds/" rest).
  change ("tfds/" ++ rest) with ("tfds" ++ String "/" rest).
  rewrite (split_append "/" "tfds" rest eq_refl), (join_split "/"). reflexivity.
Qed.

Lemma vtab_branch (rest : string) :
  build_dataset w ("vtab/" ++ rest) root transform split download annotation_file kw
  = build_vtab_dataset w rest transform download split root.
Proof.
  unfold build_dataset. name_tests ("vtab/" ++ rest).
  rewrite (startswith_append "vtab/" rest).
  change ("vtab/" ++ rest) with ("vtab" ++ String "/" rest).
  rewrite (split_append "/" "vtab" rest eq_refl), (join_split "/"). reflexivity.
Qed.

(** The last branch of the chain. *)
Lemma unsupported_branch (name : string) :
  PyStr.str_in name known_identifiers = false ->
  PyStr.startswith name "tfds/" = false ->
  PyStr.startswith name "vtab/" = false ->
  build_dataset w name root transform split download annotation_file kw
  = raise (ValueError ("Unsupported dataset: " ++ name ++ ".")).
Proof.
  intros H Ht Hv. unfold known_identifiers, PyStr.str_in in H.
  repeat (apply orb_false_elim in H as [?E H]).
  unfold build_dataset.
  repeat match goal with E : (name =? _) = false |- _ => rewrite E; clear E end.
  rewrite Ht, Hv. reflexivity.
Qed.

(** X3. An identifier under [tfds/] or [vtab/] is handed to
    [build_tfds_dataset] or [build_vtab_dataset] without its namespace and
    otherwise whole, further slashes included, together with the caller's
    transform, download flag and split, and with the root as data
    directory. *)
Theorem namespaced_name_handed_on (rest : string) :
  build_dataset w ("tfds/" ++ rest) root transform split download annotation_file kw
  = build_tfds_dataset w rest transform download split root None
  /\ build_dataset w ("vtab/" ++ rest) root transform split download annotation_file kw
     = build_vtab_dataset w rest transform download split root.
Proof.
  split; [apply tfds_branch|apply vtab_branch].
Qed.

End Namespaces.

(** ** The manual-download checks that pass, and fer2013 *)

Section Gates.

Variable w : world.
Variables (root : string) (transform : pyval) (split : string) (download : bool).
Variable kw : kwargs.

(** X4. With an annotation file that is there, [build_dataset] for each of
    the three caption corpora prints nothing: its only event is the call of
    the backend, with the annotation path and the caller's extra options,
    and it ends the way the backend ends. *)
Theorem annotation_file_present (path : string) :
  path_exists w path = true ->
  build_dataset w "mscoco_captions" root transform split download (Some path) kw
  = backend w "CocoCaptions" []
      ([("root", PStr root); ("annFile", PStr path); ("transform", transform)] ++ kw)%list
  /\ build_dataset w "flickr30k" root transform split download (Some path) kw
     = backend w "flickr.Flickr" []
         ([("root", PStr root); ("ann_file", PStr path); ("transform", transform)] ++ kw)%list
  /\ build_dataset w "flickr8k" root transform split download (Some path) kw
     = build_dataset w "flickr30k" root transform split download (Some path) kw.
Proof.
  intros H. unfold build_dataset. cbn. rewrite H. cbn. repeat split.
Qed.

(** X5. fer2013 is read from the folder [train] or [test] under the root
    ([train] only for the split train).  When that folder is missing the
    builder prints the download message and still calls the folder backend:
    it never ends the process itself.  The backend gets the folder and the
    transform and nothing else, and the handle it answers with is returned
    with the seven curated class names. *)
Theorem fer2013_resolution (annotation_file : option string) :
  trace (build_dataset w "fer2013" root transform split download annotation_file kw)
  = ((if path_exists w (PyStr.os_path_join root (if split =? "train" then "train" else "test"))
      then [] else [EPrint fer2013_message])
     ++ [ECall "ImageFolder" []
           [("root", PStr (PyStr.os_path_join root
                             (if split =? "train" then "train" else "test")));
            ("transform", transform)]])%list
  /\ (forall h,
        construct w "ImageFolder" []
          [("root", PStr (PyStr.os_path_join root
                            (if split =? "train" then "train" else "test")));
           ("transform", transform)] = Ret h ->
        result (build_dataset w "fer2013" root transform split download annotation_file kw)
        = Ret (set_classes h classnames_fer2013)
        /\ List.length classnames_fer2013 = 7)
  /\ (forall e,
        construct w "ImageFolder" []
          [("root", PStr (PyStr.os_path_join root
                            (if split =? "train" then "train" else "test")));
           ("transform", transform)] = Raise e ->
        result (build_dataset w "fer2013" root transform split download annotation_file kw)
        = Raise e).
Proof.
  unfold build_dataset. cbn -[PyStr.os_path_join classnames_fer2013].
  set (dir := PyStr.os_path_join root _).
  split; [|split].
  - destruct (path_exists w dir); cbn -[classnames_fer2013];
      destruct (construct w "ImageFolder" _ _); reflexivity.
  - intros h Hh. split; [|reflexivity].
    destruct (path_exists w dir); cbn -[classnames_fer2013]; rewrite Hh; reflexivity.
  - intros e He.
    destruct (path_exists w dir); cbn -[classnames_fer2013]; rewrite He; reflexivity.
Qed.

End Gates.

(** The caption corpora on a disk that has the annotation file. *)
Lemma annotation_file_present_witness :
  build_dataset Fixture2.full_disk "mscoco_captions" "root" PNone "test" true
                (Some "captions.json") []
  = ([ECall "CocoCaptions" []
        [("root", PStr "root"); ("annFile", PStr "captions.json"); ("transform", PNone)]],
     Ret Fixture2.underscored).
Proof.
  exact (proj1 (annotation_file_present Fixture2.full_disk "root" PNone "test" true []
                  "captions.json" eq_refl)).
Defined.

(** fer2013 on a disk without its folder: the message, then the backend. *)
Lemma fer2013_resolution_witness :
  result (build_dataset Fixture.empty_disk "fer2013" "root" PNone "train" true None [])
  = Ret (set_classes Fixture.one_based classnames_fer2013)
  /\ List.length classnames_fer2013 = 7.
Proof.
  apply (proj1 (proj2 (fer2013_resolution Fixture.empty_disk "root" PNone "train" true []
                         None))).
  reflexivity.
Defined.

(** ** What the split and the download flag decide *)

Section Arguments.

Variable w : world.
Variables (root : string) (transform : pyval).
Variable annotation_file : option string.
Variable kw : kwargs.

Lemma trace_bind_bind_call {A B C} callee pos kw' (o : outcome A)
      (k1 : A -> Eff B) (k2 : B -> Eff C) :
  exists events,
    trace (bind (bind (call callee pos kw' o) k1) k2) = ECall callee pos kw' :: events.
Proof.
  unfold call, bind. destruct o as [a| |]; [|eexists; reflexivity..].
  destruct (k1 a) as [t [b| |]]; [destruct (k2 b)|..]; eexists; reflexivity.
Qed.

(** X6. For the enumerated identifiers the split only says train or not
    train: every split other than train resolves as test does.  The caption
    corpora, sun397, caltech101 and eurosat do not look at the split at
    all. *)
Theorem split_is_train_or_not (download : bool) :
  (forall name split,
     In name known_identifiers ->
     split <> "train" ->
     build_dataset w name root transform split download annotation_file kw
     = build_dataset w name root transform "test" download annotation_file kw)
  /\ (forall name split1 split2,
        In name split_blind_identifiers ->
        build_dataset w name root transform split1 download annotation_file kw
        = build_dataset w name root transform split2 download annotation_file kw).
Proof.
  split.
  - intros name split Hn Hs. apply String.eqb_neq in Hs.
    in_cases Hn; unfold build_dataset; rewrite Hs; reflexivity.
  - intros name s1 s2 Hn. in_cases Hn; reflexivity.
Qed.

(** X7. The download flag is not looked at by the branches of imagenet1k,
    the caption corpora and fer2013, nor anywhere on the vtab path: there
    the run is the same with the flag set and unset, and dmlab is downloaded
    right after the tensorflow set-up whatever the flag says. *)
Theorem download_flag_unused (split : string) (download1 download2 : bool) :
  (forall name,
     In name download_blind_identifiers ->
     build_dataset w name root transform split download1 annotation_file kw
     = build_dataset w name root transform split download2 annotation_file kw)
  /\ (forall rest,
        build_dataset w ("vtab/" ++ rest) root transform split download1 annotation_file kw
        = build_dataset w ("vtab/" ++ rest) root transform split download2
                        annotation_file kw)
  /\ (disable_gpus_on_tensorflow w = Ret tt ->
      exists events,
        trace (build_dataset w "vtab/dmlab" root transform split false annotation_file kw)
        = disable_call
            :: ECall "download_tfds_dataset" [PStr "dmlab"] [("data_dir", PStr root)]
            :: events).
Proof.
  split; [|split].
  - intros name Hn. in_cases Hn; reflexivity.
  - intros rest. rewrite !vtab_branch. reflexivity.
  - intros Hd. change "vtab/dmlab" with ("vtab/" ++ "dmlab").
    rewrite (vtab_branch w root transform split false annotation_file kw "dmlab").
    unfold build_vtab_dataset, vtab_select. rewrite Hd.
    cbn -[subscript classnames bind call]. unfold call at 1. unfold bind at 1.
    destruct (trace_bind_bind_call "download_tfds_dataset" [PStr "dmlab"]
                [("data_dir", PStr root)] (download_tfds_dataset w "dmlab" root)
                (fun _ => tfds_dataset <- data_class w "task_adaptation.data.dmlab.DmlabData"
                                            [] [("data_dir", PStr root)] ;;
                          cs <- subscript classnames "dmlab" ;;
                          ret (tfds_dataset, Some cs))
                (fun sel => backend w "VTABIterableDataset" [PObj (adapter_obj (fst sel))]
                              [ ("input_name", PStr "image"); ("label_name", PStr "label");
                                ("transform", transform);
                                ("target_transform", PBuiltin "int");
                                ("split", PStr split);
                                ("classes", opt_strlist (snd sel)) ]))
      as [events He].
    exists events. cbn -[subscript classnames bind call] in He |- *.
    match goal with |- trace (let (t', o) := ?m in _) = _ =>
      destruct m as [t' o] eqn:M end.
    cbn in He |- *. now rewrite He.
Qed.

End Arguments.

(** The split val resolves cifar10 as the split test does. *)
Lemma split_is_train_or_not_witness :
  build_dataset Fixture.empty_disk "cifar10" "root" PNone "val" true None []
  = build_dataset Fixture.empty_disk "cifar10" "root" PNone "test" true None [].
Proof.
  apply (proj1 (split_is_train_or_not Fixture.empty_disk "root" PNone None [] true)).
  - left; reflexivity.
  - discriminate.
Defined.

(** imagenet1k with and without the download flag. *)
Lemma download_flag_unused_witness :
  build_dataset Fixture.empty_disk "imagenet1k" "root" PNone "test" true None []
  = build_dataset Fixture.empty_disk "imagenet1k" "root" PNone "test" false None [].
Proof.
  apply (proj1 (download_flag_unused Fixture.empty_disk "root" PNone None [] "test"
                  true false)).
  left; reflexivity.
Defined.

(** ** The flowers probe, beyond the two labels *)

Section FlowersEdges.

Variable w : world.
Variables (root : string) (transform : pyval) (split : string) (download : bool).
Variable annotation_file : option string.
Variable kw : kwargs.

(** X8. The flowers probe reads the first label through whatever
    [target_transform] the handle already has.  When it reads 1, the handle
    is returned with the decrement in place of that transform, so every
    label then reads as the stored label less one; when it reads anything
    else, the handle is returned as the backend built it, but for the
    curated class names.  On a backend with no sample the probe raises
    [IndexError], after the backend has been built. *)
Theorem flowers_probe_edges (ds : dataset) :
  construct w "Flowers102" []
    ([("root", PStr root); ("split", train_or (split =? "train") "test");
      ("transform", transform); ("download", PBool download)] ++ kw)%list = Ret ds ->
  (forall img l0 rest probe,
     samples ds = (img, l0) :: rest ->
     probe = match target_transform ds with Some f => f l0 | None => l0 end ->
     (probe = 1%Z ->
      exists ds',
        result (build_dataset w "flowers" root transform split download annotation_file kw)
        = Ret ds'
        /\ forall i x y, nth_error (samples ds) i = Some (x, y) ->
                         getitem ds' i = ret (x, (y - 1)%Z))
     /\ (probe <> 1%Z ->
         result (build_dataset w "flowers" root transform split download annotation_file kw)
         = Ret (set_classes ds classnames_flowers)))
  /\ (samples ds = [] ->
      build_dataset w "flowers" root transform split download annotation_file kw
      = ([ECall "Flowers102" []
            ([("root", PStr root); ("split", train_or (split =? "train") "test");
              ("transform", transform); ("download", PBool download)] ++ kw)%list],
         Raise IndexError)).
Proof.
  intros Hc. cbn in Hc. split.
  - intros img l0 rest probe Hs Hp.
    assert (G : getitem ds 0 = ret (img, probe)).
    { unfold getitem, index. rewrite Hs. cbn. now subst probe. }
    split; intros H1; unfold build_dataset;
      cbn -[subscript classnames_flowers getitem Z.eqb Z.sub];
      unfold backend, call, bind at 1; rewrite Hc, G, classnames_flowers_found;
      cbn -[classnames_flowers getitem Z.eqb Z.sub].
    + rewrite H1. cbn -[classnames_flowers getitem Z.sub].
      eexists. split; [reflexivity|].
      intros i x y Hi. unfold getitem, index. cbn -[classnames_flowers Z.sub].
      rewrite Hi. reflexivity.
    + apply Z.eqb_neq in H1. rewrite H1. reflexivity.
  - intros Hs. unfold build_dataset.
    cbn -[subscript classnames_flowers getitem Z.eqb Z.sub].
    unfold backend, call, bind at 1. rewrite Hc.
    unfold getitem, index. rewrite Hs. reflexivity.
Qed.

End FlowersEdges.

(** A caller's transform that adds 1 makes the probe read 1 on a backend
    whose labels start at 0: the decrement takes its place, and the second
    label, stored as 4, then reads 3. *)
Lemma flowers_probe_edges_witness :
  exists ds',
    result (build_dataset (Fixture.world_of Fixture2.shifted) "flowers" "root" PNone "test"
                          true None [])
    = Ret ds'
    /\ getitem Fixture2.shifted 1 = ret (PObj 1, 5%Z)
    /\ getitem ds' 1 = ret (PObj 1, 3%Z).
Proof.
  destruct (proj1 (flowers_probe_edges (Fixture.world_of Fixture2.shifted) "root" PNone
                     "test" true None [] Fixture2.shifted eq_refl)
                  (PObj 0) 0%Z [(PObj 1, 4%Z)] 1%Z eq_refl eq_refl)
    as [Hone _].
  destruct (Hone eq_refl) as (ds' & Hr & Hall).
  exists ds'. split; [exact Hr|]. split; [reflexivity|].
  exact (Hall 1 (PObj 1) 4%Z eq_refl).
Defined.

(** ** What a run never does *)

Lemma result_bind_exit {A B} (m : Eff A) (k : A -> Eff B) (code : Z) :
  result (bind m k) = Exit code ->
  result m = Exit code \/ exists a, result m = Ret a /\ result (k a) = Exit code.
Proof.
  destruct m as [t [a| |]]; cbn.
  - destruct (k a) as [t' o] eqn:K. cbn. intros ->. right. exists a. rewrite K. auto.
  - discriminate.
  - intros [= ->]. now left.
Qed.

Lemma subscript_no_exit (V : Type) (d : list (string * V)) (key : string) (code : Z) :
  result (subscript d key) <> Exit code.
Proof. unfold subscript. destruct (dict_find d key); discriminate. Qed.

Lemma assert_no_exit (b : bool) (code : Z) : result (assert_ b) <> Exit code.
Proof. destruct b; discriminate. Qed.

Section Never.

Variable w : world.
Variables (root : string) (transform : pyval) (split : string) (download : bool).
Variable annotation_file : option string.
Variable kw : kwargs.

(** X9. A run for an enumerated identifier calls at most one backend and
    prints at most one message, and it prints only for the four identifiers
    with a manual-download check. *)
Theorem one_backend_call_at_most (name : string) :
  In name known_identifiers ->
  List.length
    (calls (trace (build_dataset w name root transform split download annotation_file kw)))
    <= 1
  /\ List.length
       (prints (trace (build_dataset w name root transform split download annotation_file kw)))
       <= 1
  /\ (prints (trace (build_dataset w name root transform split download annotation_file kw))
        <> [] -> In name gated_identifiers).
Proof.
  intros Hn.
  in_cases Hn; unfold build_dataset;
    cbn -[subscript classnames getitem respace_classes PyStr.os_path_join];
    unfold backend, call, os_path_exists;
    try (destruct annotation_file as [p|]);
    cbn -[subscript classnames getitem respace_classes PyStr.os_path_join];
    repeat match goal with
      | |- context [path_exists w ?p] => destruct (path_exists w p)
      | |- context [construct w ?c ?p ?k] => destruct (construct w c p k) as [d| |]
      end;
    cbn -[subscript classnames getitem respace_classes PyStr.os_path_join];
    try (unfold respace_classes; destruct (classes d));
    try (unfold getitem, index; destruct (nth_error (samples d) 0));
    cbn; (split; [lia|split; [lia|]]); intros H; try (now contradiction H);
    cbn; tauto.
Qed.

Lemma vtab_never_exits (name : string) (data_dir : string) (code : Z) :
  never_exits w ->
  result (build_vtab_dataset w name transform download split data_dir) <> Exit code.
Proof.
  intros (Hc & Ha & Hf & Hd & Hdl & Hb & Hbf) H.
  unfold build_vtab_dataset, vtab_select in H.
  chase @result_bind_exit subscript_no_exit assert_no_exit H.
  all: cbn in *;
    match goal with
    | H : disable_gpus_on_tensorflow w = Exit _ |- _ => exact (Hd _ H)
    | H : adapter w _ _ _ = Exit _ |- _ => exact (Ha _ _ _ _ H)
    | H : construct w _ _ _ = Exit _ |- _ => exact (Hc _ _ _ _ H)
    | H : download_tfds_dataset w _ _ = Exit _ |- _ => exact (Hdl _ _ _ H)
    | H : feature_names ?a _ = Exit _, H' : adapter w _ _ _ = Ret ?a |- _ =>
        exact (Hf _ _ _ _ _ _ H' H)
    end.
Qed.

Lemma tfds_never_exits (name : string) (data_dir : string)
      (classes_ : option (list string)) (code : Z) :
  never_exits w ->
  result (build_tfds_dataset w name transform download split data_dir classes_)
  <> Exit code.
Proof.
  intros (Hc & Ha & Hf & Hd & Hdl & Hb & Hbf) H.
  unfold build_tfds_dataset in H.
  chase @result_bind_exit subscript_no_exit assert_no_exit H.
  all: cbn in *;
    match goal with
    | H : disable_gpus_on_tensorflow w = Exit _ |- _ => exact (Hd _ H)
    | H : construct w _ _ _ = Exit _ |- _ => exact (Hc _ _ _ _ H)
    | H : tfds_builder w _ _ = Exit _ |- _ => exact (Hb _ _ _ H)
    | H : download_and_prepare ?b = Exit _, H' : tfds_builder w _ _ = Ret ?b |- _ =>
        exact (proj1 (Hbf _ _ _ _ H') H)
    | H : info_label_names ?b = Exit _, H' : tfds_builder w _ _ = Ret ?b |- _ =>
        exact (proj2 (Hbf _ _ _ _ H') H)
    end.
Qed.

(** The enumerated identifiers: only the two flickr branches end the
    process. *)
Lemma exit_on_enumerated (name : string) (code : Z) :
  In name known_identifiers ->
  (forall callee pos kw' c, construct w callee pos kw' <> Exit c) ->
  result (build_dataset w name root transform split download annotation_file kw)
    = Exit code ->
  code = 1%Z
  /\ In name ["flickr30k"; "flickr8k"]
  /\ (exists path, annotation_file = Some path /\ path_exists w path = false)
  /\ calls (trace (build_dataset w name root transform split download annotation_file kw))
     = [].
Proof.
  intros Hn Hw.
  in_cases Hn; unfold build_dataset;
    cbn -[subscript classnames getitem respace_classes PyStr.os_path_join];
    unfold backend, call, os_path_exists;
    try (destruct annotation_file as [p|]);
    cbn -[subscript classnames getitem respace_classes PyStr.os_path_join];
    repeat match goal with
      | |- context [path_exists w ?p] => destruct (path_exists w p) eqn:?
      | |- context [construct w ?c ?p ?k] =>
          let E := fresh "E" in
          destruct (construct w c p k) as [d| |] eqn:E;
          [| |exfalso; exact (Hw _ _ _ _ E)]
      end;
    cbn -[subscript classnames getitem respace_classes PyStr.os_path_join];
    try (unfold respace_classes; destruct (classes d));
    try (unfold getitem, index; destruct (nth_error (samples d) 0));
    cbn; try discriminate;
    intros [= <-]; (split; [reflexivity|]); (split; [cbn; tauto|]);
    (split; [eexists; split; [reflexivity|assumption]|reflexivity]).
Qed.

(** X10. [build_dataset] ends the process only on the flickr30k and
    flickr8k branches, only with status 1, only when the annotation file is
    missing, and then before any backend is called: in a world whose
    collaborators do not end the process themselves, a run for any
    identifier that ends it is such a run. *)
Theorem exit_only_on_flickr (name : string) (code : Z) :
  never_exits w ->
  result (build_dataset w name root transform split download annotation_file kw)
    = Exit code ->
  code = 1%Z
  /\ In name ["flickr30k"; "flickr8k"]
  /\ (exists path, annotation_file = Some path /\ path_exists w path = false)
  /\ calls (trace (build_dataset w name root transform split download annotation_file kw))
     = [].
Proof.
  intros Hw H.
  destruct (PyStr.str_in name known_identifiers) eqn:K.
  - apply str_in_In in K. apply (exit_on_enumerated name code K (proj1 Hw) H).
  - exfalso. destruct (PyStr.startswith name "tfds/") eqn:T.
    + apply startswith_inv in T as [r ->].
      rewrite tfds_branch in H. exact (tfds_never_exits _ _ _ _ Hw H).
    + destruct (PyStr.startswith name "vtab/") eqn:V.
      * apply startswith_inv in V as [r ->].
        rewrite vtab_branch in H. exact (vtab_never_exits _ _ _ Hw H).
      * rewrite (unsupported_branch w root transform split download annotation_file kw
                   name K T V) in H.
        discriminate H.
Qed.

End Never.

(** The run of flickr30k on a disk without files makes no call at all. *)
Lemma one_backend_call_witness :
  List.length
    (calls (trace (build_dataset Fixture.empty_disk "flickr30k" "root" PNone "test" true
                                 (Some "captions.txt") []))) <= 1.
Proof.
  apply (one_backend_call_at_most Fixture.empty_disk "root" PNone "test" true
           (Some "captions.txt") [] "flickr30k").
  right; right; right; right; right; left; reflexivity.
Defined.

Lemma fixture_never_exits (ds : dataset) : never_exits (Fixture.world_of ds).
Proof.
  unfold never_exits. cbn.
  repeat split; try discriminate; intros;
    repeat match goal with H : Ret _ = Ret _ |- _ => injection H as <- end;
    cbn; discriminate.
Qed.

(** flickr8k on a disk without files ends the process with status 1. *)
Lemma exit_only_on_flickr_witness :
  result (build_dataset Fixture.empty_disk "flickr8k" "root" PNone "test" true
                        (Some "captions.txt") []) = Exit 1%Z
  /\ In "flickr8k" ["flickr30k"; "flickr8k"].
Proof.
  split; [reflexivity|].
  apply (exit_only_on_flickr Fixture.empty_disk "root" PNone "test" true
           (Some "captions.txt") [] "flickr8k" 1%Z).
  - apply fixture_never_exits.
  - reflexivity.
Defined.

(** ** The vtab path *)

Section Vtab.

Variable w : world.
Variables (transform : pyval) (download : bool) (split data_dir : string).

(** X11. A name that is none of the names of [build_vtab_dataset] and
    starts with none of its four family prefixes is refused with the
    unsupported-dataset [ValueError] right after the tensorflow set-up: no
    data object is built and no handle constructed. *)
Theorem vtab_unsupported_name (name : string) :
  disable_gpus_on_tensorflow w = Ret tt ->
  ~ In name vtab_names ->
  Forall (fun prefix => PyStr.startswith name prefix = false) vtab_families ->
  build_vtab_dataset w name transform download split data_dir
  = ([disable_call], Raise (ValueError ("Unsupported dataset: " ++ name))).
Proof.
  intros Hd Hn Hp. apply str_in_not_In in Hn.
  unfold vtab_names, PyStr.str_in in Hn.
  repeat (apply orb_false_elim in Hn as [?E Hn]).
  unfold vtab_families in Hp.
  repeat match goal with H : Forall _ (_ :: _) |- _ => inversion_clear H end.
  unfold build_vtab_dataset, vtab_select, PyStr.str_in. rewrite Hd.
  repeat match goal with E : _ = false |- _ => rewrite E; clear E end.
  reflexivity.
Qed.

(** A name of the clevr family reaches the clevr branch with its task. *)
Lemma vtab_clevr_branch (task : string) :
  disable_gpus_on_tensorflow w = Ret tt ->
  build_vtab_dataset w ("clevr_" ++ task) transform download split data_dir
  = (call "disable_gpus_on_tensorflow" [] [] (Ret tt) ;;;
     sel <- (assert_ (PyStr.str_in task clevr_tasks) ;;;
             tfds_dataset <- data_class w "task_adaptation.data.clevr.CLEVRData" []
                               [("task", PStr task); ("data_dir", PStr data_dir)] ;;
             if task =? "count_all" then
               cs <- subscript classnames "clevr_count_all" ;;
               ret (tfds_dataset, Some cs)
             else if task =? "closest_object_distance" then
               cs <- subscript classnames "clevr_closest_object_distance" ;;
               ret (tfds_dataset, Some cs)
             else raise (ValueError ("non supported: " ++ task))) ;;
     backend w "VTABIterableDataset" [PObj (adapter_obj (fst sel))]
             (vtab_iterable_args transform split (snd sel))).
Proof.
  intros Hd. unfold build_vtab_dataset, vtab_select. rewrite Hd.
  assert (E : _extract_task ("clevr_" ++ task) = task)
    by exact (extract_task_append "clevr" task eq_refl).
  rewrite E, (startswith_append "clevr_" task).
  name_tests ("clevr_" ++ task).
  reflexivity.
Qed.

(** X12. The clevr family.  A task outside count_all and
    closest_object_distance fails the assertion before any data object is
    built.  For each of the two tasks the CLEVRData object is built and the
    handle is constructed with the curated class names filed under the
    whole name, clevr_TASK; the unsupported-task error at the end of the
    branch is never raised. *)
Theorem clevr_task_resolution (task : string) :
  disable_gpus_on_tensorflow w = Ret tt ->
  (~ In task clevr_tasks ->
     build_vtab_dataset w ("clevr_" ++ task) transform download split data_dir
     = ([disable_call], Raise AssertionError))
  /\ (forall a,
        adapter w "task_adaptation.data.clevr.CLEVRData" []
                [("task", PStr task); ("data_dir", PStr data_dir)] = Ret a ->
        In task clevr_tasks ->
        exists cs,
          dict_find classnames ("clevr_" ++ task) = Some cs
          /\ build_vtab_dataset w ("clevr_" ++ task) transform download split data_dir
             = ([disable_call;
                 ECall "task_adaptation.data.clevr.CLEVRData" []
                       [("task", PStr task); ("data_dir", PStr data_dir)];
                 ECall "VTABIterableDataset" [PObj (adapter_obj a)]
                       (vtab_iterable_args transform split (Some cs))],
                construct w "VTABIterableDataset" [PObj (adapter_obj a)]
                       (vtab_iterable_args transform split (Some cs)))).
Proof.
  intros Hd. rewrite (vtab_clevr_branch task Hd). split.
  - intros Hn. apply str_in_not_In in Hn. rewrite Hn. reflexivity.
  - intros a Ha Hi. in_cases Hi; eexists; (split; [reflexivity|]);
      unfold data_class; cbn in Ha |- *; rewrite Ha; reflexivity.
Qed.

(** A name of the dsprites family reaches the dsprites branch. *)
Lemma vtab_dsprites_branch (task : string) :
  disable_gpus_on_tensorflow w = Ret tt ->
  build_vtab_dataset w ("dsprites_" ++ task) transform download split data_dir
  = (call "disable_gpus_on_tensorflow" [] [] (Ret tt) ;;;
     sel <- (assert_ (PyStr.str_in task dsprites_tasks) ;;;
             tfds_dataset <- data_class w "task_adaptation.data.dsprites.DSpritesData"
                               [PStr task] [("data_dir", PStr data_dir)] ;;
             ret (tfds_dataset, None)) ;;
     backend w "VTABIterableDataset" [PObj (adapter_obj (fst sel))]
             (vtab_iterable_args transform split (snd sel))).
Proof.
  intros Hd. unfold build_vtab_dataset, vtab_select. rewrite Hd.
  assert (E : _extract_task ("dsprites_" ++ task) = task)
    by exact (extract_task_append "dsprites" task eq_refl).
  rewrite E, (startswith_append "dsprites_" task).
  name_tests ("dsprites_" ++ task).
  reflexivity.
Qed.

(** A name of the smallnorb family reaches the smallnorb branch. *)
Lemma vtab_smallnorb_branch (task : string) :
  disable_gpus_on_tensorflow w = Ret tt ->
  build_vtab_dataset w ("smallnorb_" ++ task) transform download split data_dir
  = (call "disable_gpus_on_tensorflow" [] [] (Ret tt) ;;;
     sel <- (assert_ (PyStr.str_in task smallnorb_tasks) ;;;
             tfds_dataset <- data_class w "task_adaptation.data.smallnorb.SmallNORBData" []
                               [("predicted_attribute", PStr task);
                                ("data_dir", PStr data_dir)] ;;
             cs <- lift (feature_names tfds_dataset task) ;;
             ret (tfds_dataset, Some cs)) ;;
     backend w "VTABIterableDataset" [PObj (adapter_obj (fst sel))]
             (vtab_iterable_args transform split (snd sel))).
Proof.
  intros Hd. unfold build_vtab_dataset, vtab_select. rewrite Hd.
  assert (E : _extract_task ("smallnorb_" ++ task) = task)
    by exact (extract_task_append "smallnorb" task eq_refl).
  rewrite E, (startswith_append "smallnorb_" task).
  name_tests ("smallnorb_" ++ task).
  reflexivity.
Qed.

(** X13. The dsprites and smallnorb families.  A task outside the asserted
    tasks of its family fails the assertion before any data object is
    built.  For an asserted dsprites task the handle is constructed without
    class names of the builder's; for an asserted smallnorb task it is
    constructed with the label names the data object reports for the task,
    and when the data object cannot report them its error ends the run
    before a handle is constructed. *)
Theorem dsprites_smallnorb_resolution (task : string) :
  disable_gpus_on_tensorflow w = Ret tt ->
  ((~ In task dsprites_tasks ->
      build_vtab_dataset w ("dsprites_" ++ task) transform download split data_dir
      = ([disable_call], Raise AssertionError))
   /\ (forall a,
         adapter w "task_adaptation.data.dsprites.DSpritesData" [PStr task]
                 [("data_dir", PStr data_dir)] = Ret a ->
         In task dsprites_tasks ->
         build_vtab_dataset w ("dsprites_" ++ task) transform download split data_dir
         = ([disable_call;
             ECall "task_adaptation.data.dsprites.DSpritesData" [PStr task]
                   [("data_dir", PStr data_dir)];
             ECall "VTABIterableDataset" [PObj (adapter_obj a)]
                   (vtab_iterable_args transform split None)],
            construct w "VTABIterableDataset" [PObj (adapter_obj a)]
                   (vtab_iterable_args transform split None))))
  /\ ((~ In task smallnorb_tasks ->
         build_vtab_dataset w ("smallnorb_" ++ task) transform download split data_dir
         = ([disable_call], Raise AssertionError))
      /\ (forall a,
            adapter w "task_adaptation.data.smallnorb.SmallNORBData" []
                    [("predicted_attribute", PStr task); ("data_dir", PStr data_dir)]
              = Ret a ->
            In task smallnorb_tasks ->
            (forall names,
               feature_names a task = Ret names ->
               build_vtab_dataset w ("smallnorb_" ++ task) transform download split data_dir
               = ([disable_call;
                   ECall "task_adaptation.data.smallnorb.SmallNORBData" []
                         [("predicted_attribute", PStr task); ("data_dir", PStr data_dir)];
                   ECall "VTABIterableDataset" [PObj (adapter_obj a)]
                         (vtab_iterable_args transform split (Some names))],
                  construct w "VTABIterableDataset" [PObj (adapter_obj a)]
                         (vtab_iterable_args transform split (Some names))))
            /\ (forall e,
                  feature_names a task = Raise e ->
                  build_vtab_dataset w ("smallnorb_" ++ task) transform download split
                                     data_dir
                  = ([disable_call;
                      ECall "task_adaptation.data.smallnorb.SmallNORBData" []
                            [("predicted_attribute", PStr task);
                             ("data_dir", PStr data_dir)]],
                     Raise e)))).
Proof.
  intros Hd. split.
  - rewrite (vtab_dsprites_branch task Hd). split.
    + intros Hn. apply str_in_not_In in Hn. rewrite Hn. reflexivity.
    + intros a Ha Hi. apply str_in_In in Hi. rewrite Hi.
      unfold data_class. cbn in Ha |- *. rewrite Ha. reflexivity.
  - rewrite (vtab_smallnorb_branch task Hd). split.
    + intros Hn. apply str_in_not_In in Hn. rewrite Hn. reflexivity.
    + intros a Ha Hi. apply str_in_In in Hi. rewrite Hi.
      split; [intros names Hf|intros e Hf];
        unfold data_class, lift; cbn in Ha |- *; rewrite Ha; cbn; rewrite Hf; reflexivity.
Qed.

End Vtab.

(** A name nobody knows, on the vtab path. *)
Lemma vtab_unsupported_name_witness :
  build_vtab_dataset Fixture.empty_disk "imagenet" PNone true "test" "root"
  = ([disable_call], Raise (ValueError "Unsupported dataset: imagenet")).
Proof.
  apply (vtab_unsupported_name Fixture.empty_disk PNone true "test" "root" "imagenet").
  - reflexivity.
  - apply str_in_not_In. reflexivity.
  - repeat constructor.
Defined.

(** A clevr task that is not asserted. *)
Lemma clevr_task_resolution_witness :
  build_vtab_dataset Fixture.empty_disk "clevr_count_cubes" PNone true "test" "root"
  = ([disable_call], Raise AssertionError).
Proof.
  apply (proj1 (clevr_task_resolution Fixture.empty_disk PNone true "test" "root"
                  "count_cubes" eq_refl)).
  apply str_in_not_In. reflexivity.
Defined.

(** A smallnorb task, with the label names of the fixture's data object. *)
Lemma dsprites_smallnorb_resolution_witness :
  result (build_vtab_dataset Fixture2.full_disk "smallnorb_label_azimuth" PNone true
                             "test" "root")
  = Ret Fixture2.underscored.
Proof.
  pose proof (proj2 (proj2 (dsprites_smallnorb_resolution Fixture2.full_disk PNone true
                              "test" "root" "label_azimuth" eq_refl))
                {| adapter_obj := 7; feature_names := fun _ => Ret ["0"; "1"] |}
                eq_refl) as H.
  destruct H as [H _].
  - right; right; left; reflexivity.
  - exact (f_equal (@result dataset) (H ["0"; "1"] eq_refl)).
Defined.

(** ** The tfds path *)

Section Tfds.

Variable w : world.
Variables (name : string) (transform : pyval) (download : bool) (split data_dir : string).

(** X14. [build_tfds_dataset] refuses a split the builder does not report:
    after the set-up, the builder and (only when the download flag is set)
    the download, it fails the assertion, and the dataset is never
    created. *)
Theorem tfds_unknown_split (b : tfds_builder_t) (classes_ : option (list string)) :
  disable_gpus_on_tensorflow w = Ret tt ->
  tfds_builder w name data_dir = Ret b ->
  (download = true -> download_and_prepare b = Ret tt) ->
  ~ In split (info_splits b) ->
  build_tfds_dataset w name transform download split data_dir classes_
  = (tfds_prelude name data_dir download, Raise AssertionError).
Proof.
  intros Hd Hb Hp Hs. apply str_in_not_In in Hs.
  unfold build_tfds_dataset, tfds_prelude. rewrite Hd, Hb.
  destruct download; cbn; [rewrite (Hp eq_refl); cbn|]; rewrite Hs; reflexivity.
Qed.

(** X15. With a split the builder reports, [build_tfds_dataset] creates
    the dataset under the name tfds/NAME with the split as given, and
    returns it with the caller's class names when there are any, and
    otherwise with the label names of the builder; those are asked for only
    in the second case, and when the builder has none its error ends the
    run. *)
Theorem tfds_class_names (b : tfds_builder_t) (ds : dataset) :
  disable_gpus_on_tensorflow w = Ret tt ->
  tfds_builder w name data_dir = Ret b ->
  (download = true -> download_and_prepare b = Ret tt) ->
  In split (info_splits b) ->
  construct w "timm.data.create_dataset" (create_dataset_args name data_dir)
            (create_dataset_options transform split) = Ret ds ->
  (forall cs,
     build_tfds_dataset w name transform download split data_dir (Some cs)
     = ((tfds_prelude name data_dir download
           ++ [ECall "timm.data.create_dataset" (create_dataset_args name data_dir)
                     (create_dataset_options transform split)])%list,
        Ret (set_classes ds cs)))
  /\ (forall names,
        info_label_names b = Ret names ->
        build_tfds_dataset w name transform download split data_dir None
        = ((tfds_prelude name data_dir download
              ++ [ECall "timm.data.create_dataset" (create_dataset_args name data_dir)
                        (create_dataset_options transform split)])%list,
           Ret (set_classes ds names)))
  /\ (forall e,
        info_label_names b = Raise e ->
        build_tfds_dataset w name transform download split data_dir None
        = ((tfds_prelude name data_dir download
              ++ [ECall "timm.data.create_dataset" (create_dataset_args name data_dir)
                        (create_dataset_options transform split)])%list,
           Raise e)).
Proof.
  intros Hd Hb Hp Hs Hc. apply str_in_In in Hs.
  unfold create_dataset_args, create_dataset_options in *. cbn in Hc.
  repeat split; intros;
    unfold build_tfds_dataset, tfds_prelude, backend, lift; rewrite Hd, Hb;
    destruct download; cbn; try (rewrite (Hp eq_refl); cbn);
    rewrite Hs; cbn; rewrite Hc; cbn;
    try match goal with H : info_label_names b = _ |- _ => rewrite H end;
    reflexivity.
Qed.

End Tfds.

(** The split val on a builder that reports train and test. *)
Lemma tfds_unknown_split_witness :
  build_tfds_dataset Fixture.empty_disk "cifar10" PNone false "val" "root" None
  = ([disable_call; tfds_builder_call "cifar10" "root"], Raise AssertionError).
Proof.
  apply (tfds_unknown_split Fixture.empty_disk "cifar10" PNone false "val" "root"
           {| download_and_prepare := Ret tt;
              info_splits := ["train"; "test"];
              info_label_names := Ret ["a"; "b"] |} None).
  - reflexivity.
  - reflexivity.
  - discriminate.
  - apply str_in_not_In. reflexivity.
Defined.

(** The split test, with the label names of the builder. *)
Lemma tfds_class_names_witness :
  result (build_tfds_dataset Fixture.empty_disk "cifar10" PNone true "test" "root" None)
  = Ret (set_classes Fixture.one_based ["a"; "b"]).
Proof.
  pose proof (tfds_class_names Fixture.empty_disk "cifar10" PNone true "test" "root"
                {| download_and_prepare := Ret tt;
                   info_splits := ["train"; "test"];
                   info_label_names := Ret ["a"; "b"] |} Fixture.one_based
                eq_refl eq_refl (fun _ => eq_refl)) as H.
  destruct H as (_ & H & _).
  - right; left; reflexivity.
  - reflexivity.
  - exact (f_equal (@result dataset) (H ["a"; "b"] eq_refl)).
Defined.

(** ** The nineteen vtab tasks *)

Section Nineteen.

Variable w : world.
Variables (root : string) (transform : pyval) (split : string) (download : bool).
Variable annotation_file : option string.
Variable kw : kwargs.

(** X16. Every entry of [VTAB_19TASKS] is an identifier the builder
    resolves: in a world whose collaborators all answer, [build_dataset]
    returns a handle for it, for any split and any options.  And every entry
    has a template set of its own, filed under its name without the
    namespace: none of them falls back to the default templates. *)
Theorem vtab_19_tasks_resolve (name : string) :
  answering w ->
  In name VTAB_19TASKS ->
  (exists ds,
     result (build_dataset w name root transform split download annotation_file kw)
     = Ret ds)
  /\ (exists l,
        dict_find zeroshot_classification_templates (first_segment (strip_namespace name))
        = Some l
        /\ get_zeroshot_classification_templates name = ret l).
Proof.
  intros (Hc & Ha & Hd & Hdl) Hn. split.
  - in_cases Hn; unfold build_dataset, build_vtab_dataset, vtab_select, backend,
      data_class, call, lift;
      repeat (cbn -[subscript classnames respace_classes construct adapter
                    disable_gpus_on_tensorflow download_tfds_dataset feature_names];
              first [ rewrite Hd
                    | match goal with
                      | |- context [adapter w ?c ?p ?k] =>
                          let a := fresh "a" in
                          let F := fresh "F" in
                          destruct (Ha c p k) as (a & -> & F)
                      | |- context [construct w ?c ?p ?k] =>
                          let h := fresh "h" in
                          let cs := fresh "cs" in
                          let E := fresh "E" in
                          destruct (Hc c p k) as (h & cs & -> & E)
                      | |- context [download_tfds_dataset w ?n ?d] => rewrite (Hdl n d)
                      | |- context [subscript classnames ?k] =>
                          let r := eval cbv [subscript dict_find classnames String.eqb
                                             Ascii.eqb Bool.eqb] in
                                   (subscript classnames k) in
                          change (subscript classnames k) with r
                      | F : forall feature, exists names, feature_names ?a feature = Ret names
                        |- context [feature_names ?a ?f] =>
                          let names := fresh "names" in
                          destruct (F f) as (names & ->)
                      | E : classes ?h = Some _ |- context [respace_classes ?h] =>
                          unfold respace_classes; rewrite E
                      end ]);
      eexists; reflexivity.
  - in_cases Hn; eexists; split; reflexivity.
Qed.

End Nineteen.

Lemma full_disk_answering : answering Fixture2.full_disk.
Proof.
  repeat split.
  - intros. do 2 eexists. split; reflexivity.
  - intros. eexists. split; [reflexivity|]. intros. eexists. reflexivity.
Qed.

(** The kitti task of the nineteen, on the fixture. *)
Lemma vtab_19_tasks_witness :
  exists ds,
    result (build_dataset Fixture2.full_disk "vtab/kitti_closest_vehicle_distance"
                          "root" PNone "test" true None [])
    = Ret ds.
Proof.
  apply (vtab_19_tasks_resolve Fixture2.full_disk "root" PNone "test" true None []
           "vtab/kitti_closest_vehicle_distance" full_disk_answering).
  do 10 right; left; reflexivity.
Defined.

(** ** Collating samples of any shape *)

Section CollateRows.

Variable w : world.

Lemma heads_tails_shape {A} (rows : list (list A)) hs ts :
  heads_tails rows = Some (hs, ts) ->
  List.length hs = List.length rows
  /\ Forall2 (fun row t => List.length row = S (List.length t)) rows ts.
Proof.
  revert hs ts. induction rows as [|row rows IH]; cbn; intros hs ts H.
  - injection H as <- <-. auto.
  - destruct row as [|x r]; [discriminate|].
    destruct (heads_tails rows) as [[hs' ts']|]; [|discriminate].
    injection H as <- <-. destruct (IH hs' ts' eq_refl) as [H1 H2].
    cbn. split; [now rewrite H1|constructor; auto].
Qed.

Lemma heads_tails_some (rows : list (list pyval)) :
  Forall has_two rows ->
  heads_tails rows = Some (map component0 rows, map (@tl pyval) rows).
Proof.
  induction 1 as [|row rows (x & y & rest & ->) _ IH]; cbn; [reflexivity|].
  rewrite IH. reflexivity.
Qed.

Lemma heads_tails_tails (rows : list (list pyval)) :
  Forall has_two rows ->
  exists ts, heads_tails (map (@tl pyval) rows) = Some (map component1 rows, ts).
Proof.
  induction 1 as [|row rows (x & y & rest & ->) _ [ts IH]]; cbn.
  - eexists. reflexivity.
  - rewrite IH. eexists. reflexivity.
Qed.

Lemma tails_longer {A} (n : nat) (rows ts : list (list A)) :
  Forall2 (fun row t => List.length row = S (List.length t)) rows ts ->
  Forall (fun t => n <= List.length t) ts ->
  Forall (fun row => S n <= List.length row) rows.
Proof.
  induction 1 as [|row t rows ts Hrt _ IH]; intros I; constructor;
    inversion I; subst; [lia|auto].
Qed.

(** The columns of a transposed batch: as many as the shortest sample has
    components at most, each with one entry per sample. *)
Lemma zip_columns_shape {A} (row : list A) (rows : list (list A)) :
  List.length (zip_columns row rows) <= List.length row
  /\ Forall (fun r => List.length (zip_columns row rows) <= List.length r) rows
  /\ Forall (fun col => List.length col = S (List.length rows)) (zip_columns row rows).
Proof.
  revert rows. induction row as [|x row IH]; intros rows; cbn.
  - repeat split; [lia| |constructor].
    apply Forall_forall. intros; lia.
  - destruct (heads_tails rows) as [[hs ts]|] eqn:H.
    + destruct (heads_tails_shape rows hs ts H) as [H1 H2].
      destruct (IH ts) as (I1 & I2 & I3).
      cbn. split; [lia|]. split.
      * exact (tails_longer _ rows ts H2 I2).
      * constructor; [cbn; now rewrite H1|].
        apply Forall2_length in H2. rewrite H2. exact I3.
    + cbn. repeat split; [lia| |constructor].
      apply Forall_forall. intros; lia.
Qed.

(** X17. The caption-aware collator on samples of any shape.  On a batch
    that is not empty and whose samples all have an image and a target, it
    stacks the first components with the default collator and returns the
    second components in batch order; whatever follows them in a sample is
    dropped.  On a batch with a sample of fewer than two components it
    never returns. *)
Theorem collate_any_rows :
  (forall row rows,
     Forall has_two (row :: rows) ->
     image_captions_collate_fn w (row :: rows)
     = (imgs <- lift (default_collate w (map component0 (row :: rows))) ;;
        ret (imgs, map component1 (row :: rows))))
  /\ (forall rows v,
        Exists (fun row => List.length row < 2) rows ->
        result (image_captions_collate_fn w rows) <> Ret v).
Proof.
  split.
  - intros row rows H. inversion H as [|? ? (x & y & rest & ->) Hr]; subst.
    unfold image_captions_collate_fn. cbn -[component0 component1 map].
    rewrite (heads_tails_some rows Hr).
    destruct (heads_tails_tails rows Hr) as [ts Ht].
    cbn -[component0 component1 map]. rewrite Ht.
    cbn -[component0 component1 map]. unfold lift, bind.
    destruct (default_collate w _); reflexivity.
  - intros rows v H.
    assert (L : List.length (zip_star rows) < 2).
    { destruct rows as [|row rows]; [inversion H|]. cbn.
      destruct (zip_columns_shape row rows) as (L1 & L2 & _).
      inversion H as [? ? H0|? ? H0]; subst; [lia|].
      apply Exists_exists in H0 as (r & Hin & Hlt).
      rewrite Forall_forall in L2. specialize (L2 r Hin). lia. }
    unfold image_captions_collate_fn.
    destruct (zip_star rows) as [|c0 [|c1 cols]]; cbn in *; [discriminate| |lia].
    unfold lift, bind. destruct (default_collate w c0); discriminate.
Qed.

End CollateRows.

(** Samples with a third component: it is dropped. *)
Lemma collate_any_rows_witness :
  image_captions_collate_fn Fixture.empty_disk
    [[PObj 1; PStrList ["a"]; PInt 7]; [PObj 2; PStrList ["b"; "c"]; PInt 8]]
  = ret (PObj 2, [PStrList ["a"]; PStrList ["b"; "c"]]).
Proof.
  rewrite (proj1 (collate_any_rows Fixture.empty_disk)).
  - reflexivity.
  - repeat constructor; do 3 eexists; reflexivity.
Defined.

(** ** The tables *)

Lemma dict_find_In {V} (d : list (string * V)) (key : string) (v : V) :
  dict_find d key = Some v -> In (key, v) d.
Proof.
  induction d as [|[k x] d IH]; cbn; [discriminate|].
  destruct (String.eqb k key) eqn:E.
  - apply String.eqb_eq in E. intros [= <-]. left. now subst.
  - intros H. right. auto.
Qed.

(** X18. Whatever the identifier, the templates
    [get_zeroshot_classification_templates] returns are at least one, and
    each of them holds the slot for the class name exactly once. *)
Theorem templates_have_one_slot (identifier : string) (l : list string) :
  get_zeroshot_classification_templates identifier = ret l ->
  l <> [] /\ Forall (fun template => count_slot template = 1) l.
Proof.
  rewrite templates_total. intros [= <-].
  assert (T : forallb (fun kv => negb (Nat.eqb (List.length (snd kv)) 0)
                                 && forallb (fun t => Nat.eqb (count_slot t) 1) (snd kv))
                      zeroshot_classification_templates = true) by (vm_compute; reflexivity).
  rewrite forallb_forall in T.
  assert (G : forall l', negb (Nat.eqb (List.length l') 0)
                         && forallb (fun t => Nat.eqb (count_slot t) 1) l' = true ->
                         l' <> [] /\ Forall (fun t => count_slot t = 1) l').
  { intros l' H. apply andb_true_iff in H as [H1 H2]. split.
    - intros ->. discriminate.
    - apply Forall_forall. intros t Ht. rewrite forallb_forall in H2.
      apply Nat.eqb_eq. auto. }
  apply G. unfold templates_of, dict_get.
  destruct (dict_find zeroshot_classification_templates _) as [l'|] eqn:F.
  - apply dict_find_In in F. exact (T _ F).
  - apply (T ("imagenet1k", templates_imagenet1k)). right; right; left; reflexivity.
Qed.

(** The templates of an identifier nobody knows. *)
Lemma templates_have_one_slot_witness :
  templates_imagenet1k <> []
  /\ Forall (fun template => count_slot template = 1) templates_imagenet1k.
Proof.
  apply (templates_have_one_slot "unknown_name" templates_imagenet1k). reflexivity.
Defined.

Lemma strike_permutation (x : string) (l r : list string) :
  strike x l = Some r -> Permutation l (x :: r).
Proof.
  revert r. induction l as [|y l IH]; cbn; intros r H; [discriminate|].
  destruct (String.eqb x y) eqn:E.
  - apply String.eqb_eq in E. injection H as <-. now subst.
  - destruct (strike x l) as [r'|]; [|discriminate]. injection H as <-.
    rewrite (IH r' eq_refl). apply perm_swap.
Qed.

Lemma same_strings_permutation (l1 l2 : list string) :
  same_strings l1 l2 = true -> Permutation l1 l2.
Proof.
  revert l2. induction l1 as [|x l1 IH]; cbn; intros l2 H.
  - destruct l2; [constructor|discriminate].
  - destruct (strike x l2) as [r|] eqn:S; [|discriminate].
    rewrite (strike_permutation x l2 r S). constructor. auto.
Qed.

Lemma distinct_NoDup (l : list string) : distinct l = true <-> NoDup l.
Proof.
  induction l as [|x l IH]; cbn.
  - split; [constructor|reflexivity].
  - rewrite andb_true_iff, negb_true_iff, IH, str_in_not_In. split.
    + intros [H1 H2]. now constructor.
    + intros H. inversion H; auto.
Qed.

(** X19. The class names of the vtab caltech101 are the class names of
    caltech101 in another order: the same 102 names, each once, and not the
    same list. *)
Theorem caltech101_vtab_reordered :
  Permutation classnames_caltech101 classnames_caltech101_vtab
  /\ NoDup classnames_caltech101
  /\ List.length classnames_caltech101_vtab = 102
  /\ classnames_caltech101 <> classnames_caltech101_vtab
  /\ dict_find classnames "caltech101" = Some classnames_caltech101
  /\ dict_find classnames "caltech101_vtab" = Some classnames_caltech101_vtab.
Proof.
  split; [apply same_strings_permutation; vm_compute; reflexivity|].
  split; [apply distinct_NoDup; vm_compute; reflexivity|].
  split; [reflexivity|]. split; [|split; reflexivity].
  intros H. apply (f_equal (@hd string EmptyString)) in H. discriminate H.
Qed.

(** X20. In every curated vocabulary but that of imagenet1k no class name
    stands twice.  The vocabulary of imagenet1k names two pairs of classes
    alike: missile at the labels 657 and 744, sunglasses at 836 and 837. *)
Theorem vocabulary_duplicates :
  (forall key cs, In (key, cs) classnames -> key <> "imagenet1k" -> NoDup cs)
  /\ ~ NoDup classnames_imagenet1k
  /\ nth_error classnames_imagenet1k 657 = Some "missile"
  /\ nth_error classnames_imagenet1k 744 = Some "missile"
  /\ nth_error classnames_imagenet1k 836 = Some "sunglasses"
  /\ nth_error classnames_imagenet1k 837 = Some "sunglasses".
Proof.
  split; [|split; [|repeat split; reflexivity]].
  - intros key cs Hin Hk. apply distinct_NoDup.
    assert (T : forallb (fun kv => String.eqb (fst kv) "imagenet1k" || distinct (snd kv))
                        classnames = true) by (vm_compute; reflexivity).
    rewrite forallb_forall in T. specialize (T _ Hin). cbn in T.
    apply String.eqb_neq in Hk. now rewrite Hk in T.
  - intros H. apply distinct_NoDup in H. vm_compute in H. discriminate H.
Qed.

(** The vocabulary of mnist. *)
Lemma vocabulary_duplicates_witness : NoDup classnames_mnist.
Proof.
  apply (proj1 vocabulary_duplicates "mnist" classnames_mnist).
  - do 10 right; left; reflexivity.
  - discriminate.
Defined.
